(** * yoink / seeker: an interactive file-and-content finder

    A shallow embedding of the two front ends of the repository:
    - [Seeker]  : src/seeker.py, the configuration-dashboard variant
                  (one search, then one dispatch);
    - [Yoink]   : src/yoink.py, the looping variant (live toggles, repeated
                  searches until an action key is pressed).

    Python strings are modelled as [string] (a sequence of characters with
    code points below 256); a value that may be [None] is an [option].
    External behaviour (the selector pipeline, the prompt, child processes,
    the file system around the hand-off file) is an explicit environment:
    what it answers is an input of the model, what the program does to it is
    recorded in a [World]. *)

From Stdlib Require Import String Ascii List Bool ZArith Lia.
Import ListNotations.
Local Open Scope list_scope.
Local Open Scope string_scope.

(** ** Python string primitives used by the sources *)

Module Py.

Definition chr (n : nat) : ascii := ascii_of_nat n.

Definition LF : ascii := chr 10.
Definition CR : ascii := chr 13.
Definition ESC : ascii := chr 27.
Definition DQUOTE : ascii := chr 34.

(** [bool(s)] for a [str]: the empty string is falsy. *)
Definition truthy (s : string) : bool :=
  match s with
  | EmptyString => false
  | String _ _ => true
  end.

(** [s.split(sep)] for a one-character separator: never the empty list. *)
Fixpoint split (sep : ascii) (s : string) : list string :=
  match s with
  | EmptyString => [EmptyString]
  | String c r =>
      if Ascii.eqb c sep then EmptyString :: split sep r
      else match split sep r with
           | [] => [String c EmptyString]
           | p :: ps => String c p :: ps
           end
  end.

(** [sep.join(parts)]. *)
Fixpoint join (sep : string) (parts : list string) : string :=
  match parts with
  | [] => EmptyString
  | [p] => p
  | p :: ps => p ++ sep ++ join sep ps
  end.

(** Line boundaries of [str.splitlines] among the code points below 256:
    LF, CR, VT, FF, FS, GS, RS and NEL. *)
Definition is_linebreak (c : ascii) : bool :=
  let n := nat_of_ascii c in
  (Nat.eqb n 10 || Nat.eqb n 13 || Nat.eqb n 11 || Nat.eqb n 12
   || Nat.eqb n 28 || Nat.eqb n 29 || Nat.eqb n 30 || Nat.eqb n 133)%bool.

(** [s.splitlines()]: no line for a final line break, CR LF is one break. *)
Fixpoint splitlines (s : string) : list string :=
  match s with
  | EmptyString => []
  | String c r =>
      if is_linebreak c then
        match r with
        | String c' r' =>
            if (Ascii.eqb c CR && Ascii.eqb c' LF)%bool
            then EmptyString :: splitlines r'
            else EmptyString :: splitlines r
        | EmptyString => [EmptyString]
        end
      else match splitlines r with
           | [] => [String c EmptyString]
           | l :: ls => String c l :: ls
           end
  end.

(** [c.isspace()] among the code points below 256. *)
Definition is_space (c : ascii) : bool :=
  let n := nat_of_ascii c in
  ((Nat.leb 9 n && Nat.leb n 13) || (Nat.leb 28 n && Nat.leb n 32)
   || Nat.eqb n 133 || Nat.eqb n 160)%bool.

Fixpoint lstrip (s : string) : string :=
  match s with
  | EmptyString => EmptyString
  | String c r => if is_space c then lstrip r else s
  end.

Fixpoint rstrip (s : string) : string :=
  match s with
  | EmptyString => EmptyString
  | String c r =>
      match rstrip r with
      | EmptyString => if is_space c then EmptyString else String c EmptyString
      | r' => String c r'
      end
  end.

(** [s.strip()]. *)
Definition strip (s : string) : string := rstrip (lstrip s).

(** [s.replace(old, new)] for a one-character [old]. *)
Fixpoint replace (old : ascii) (new : string) (s : string) : string :=
  match s with
  | EmptyString => EmptyString
  | String c r =>
      if Ascii.eqb c old then new ++ replace old new r
      else String c (replace old new r)
  end.

(** [s.upper()] on the ASCII letters, which is all the editor names of the
    dashboard contain; the letters above code point 127 are left as they
    are, where [str.upper] would change them. *)
Definition upper_char (c : ascii) : ascii :=
  let n := nat_of_ascii c in
  if (Nat.leb 97 n && Nat.leb n 122)%bool then chr (n - 32) else c.

Fixpoint upper (s : string) : string :=
  match s with
  | EmptyString => EmptyString
  | String c r => String (upper_char c) (upper r)
  end.

Definition startswith (p s : string) : bool := String.prefix p s.

(** [s.rstrip('/')]. *)
Fixpoint rstrip_slash (s : string) : string :=
  match s with
  | EmptyString => EmptyString
  | String c r =>
      match rstrip_slash r with
      | EmptyString => if Ascii.eqb c "/" then EmptyString else String c EmptyString
      | r' => String c r'
      end
  end.

Fixpoint all_slash (s : string) : bool :=
  match s with
  | EmptyString => true
  | String c r => (Ascii.eqb c "/" && all_slash r)%bool
  end.

End Py.

(** ** [os.path] on a POSIX host, as [posixpath] defines it *)

Module PosixPath.
Import Py.

(** [s.endswith('/')]. *)
Fixpoint ends_with_slash (s : string) : bool :=
  match s with
  | EmptyString => false
  | String c EmptyString => Ascii.eqb c "/"
  | String _ r => ends_with_slash r
  end.

(** [posixpath.join(a, p)] for two components. *)
Definition join2 (a p : string) : string :=
  if startswith "/" p then p
  else if (negb (truthy a) || ends_with_slash a)%bool then a ++ p
  else a ++ "/" ++ p.

(** The loop of [normpath] over the components; [acc] is [new_comps],
    most recent component first. *)
Fixpoint norm_comps (initial_slashes : bool) (acc : list string)
         (comps : list string) : list string :=
  match comps with
  | [] => rev acc
  | comp :: rest =>
      if (String.eqb comp "" || String.eqb comp ".")%bool then
        norm_comps initial_slashes acc rest
      else if (negb (String.eqb comp "..")
               || (negb initial_slashes && match acc with [] => true | _ => false end)
               || match acc with top :: _ => String.eqb top ".." | [] => false end)%bool
      then norm_comps initial_slashes (comp :: acc) rest
      else match acc with
           | _ :: acc' => norm_comps initial_slashes acc' rest
           | [] => norm_comps initial_slashes acc rest
           end
  end.

Definition normpath (path : string) : string :=
  if negb (truthy path) then "."
  else
    let initial := startswith "/" path in
    let slashes :=
      if negb initial then ""
      else if (startswith "//" path && negb (startswith "///" path))%bool
           then "//" else "/" in
    let p := slashes ++ Py.join "/" (norm_comps initial [] (split "/" path)) in
    if truthy p then p else ".".

(** [os.path.abspath(path)] with [os.getcwd() = cwd]. *)
Definition abspath (cwd path : string) : string :=
  normpath (if startswith "/" path then path else join2 cwd path).

(** [p[:p.rfind('/') + 1]]. *)
Fixpoint through_last_slash (p : string) : string :=
  match p with
  | EmptyString => EmptyString
  | String c r =>
      match through_last_slash r with
      | EmptyString => if Ascii.eqb c "/" then "/" else EmptyString
      | h => String c h
      end
  end.

(** [os.path.dirname(p)]. *)
Definition dirname (p : string) : string :=
  let head := through_last_slash p in
  if (truthy head && negb (all_slash head))%bool then rstrip_slash head else head.

End PosixPath.

(** ** The host: what the programs do to it and what it answers *)

Module Host.

(** Child processes and shell commands the program launches. *)
Inductive Proc :=
| Shell (cmd : string)           (* [Popen(cmd, shell=True)]: [/bin/sh -c cmd] *)
| Exec (argv : list string)      (* [subprocess.run(argv)] / [subprocess.call(argv)] *)
| StartFile (path : string).     (* [os.startfile(path)] *)

(** Terminal actions of the rich console of the looping variant. *)
Inductive Screen :=
| Cleared
| PanelShown (body subtitle : string)
| Asked (prompt : string).

(** The observable state: the hand-off file [~/.yoink_last_path]
    ([None]: absent), the texts written to standard output, the actions of
    the rich console (each of which also writes to standard output) and the
    processes launched, oldest first. *)
Record World := mkWorld {
  handoff : option string;
  stdout : list string;
  screen : list Screen;
  procs : list Proc
}.

Definition set_handoff (h : option string) (w : World) : World :=
  mkWorld h (stdout w) (screen w) (procs w).
Definition add_stdout (s : string) (w : World) : World :=
  mkWorld (handoff w) (stdout w ++ [s])%list (screen w) (procs w).
Definition add_screen (s : Screen) (w : World) : World :=
  mkWorld (handoff w) (stdout w) (screen w ++ [s])%list (procs w).
Definition add_proc (p : Proc) (w : World) : World :=
  mkWorld (handoff w) (stdout w) (screen w) (procs w ++ [p])%list.

(** What a console action writes to standard output, as the text handed to
    the console: the control codes of [console.clear()], the body and the
    subtitle of a panel, the prompt and its suffix. The console renders
    markup tags and draws the panel's box; that rendering is not modelled. *)
Definition render (s : Screen) : string :=
  match s with
  | Cleared => String Py.ESC "[2J" ++ String Py.ESC "[H"
  | PanelShown body subtitle => body ++ String Py.LF subtitle
  | Asked prompt => prompt ++ ": "
  end.

(** A console action: recorded, and its text written to standard output. *)
Definition show (s : Screen) (w : World) : World :=
  add_stdout (render s) (add_screen s w).

(** How a launched child process ends for the caller. *)
Inductive ChildOutcome :=
| Ran                          (* the call returns *)
| NotFound                     (* [FileNotFoundError]: no such binary *)
| Failed (msg : string)        (* another [OSError] *)
| Interrupted.                 (* [KeyboardInterrupt] while waiting *)

(** Python exceptions the sources raise, catch or let through. *)
Inductive exn :=
| KeyboardInterrupt
| SystemExit (code : Z)
| FileNotFoundError (msg : string)
| OSError (msg : string)
| EOFError
| UnicodeDecodeError (msg : string).

(** What a blocking call gives back: its value, an operator interrupt while
    it waits, or the exception [e] it raises otherwise ([EOFError] at the
    prompt when the input has ended; [FileNotFoundError], another [OSError]
    or [UnicodeDecodeError] in the pipeline). [started] counts the processes
    the call had started when it raised: for the pipeline, 0 when [Popen] of
    the source raised, 1 when [subprocess.run] could not start the selector,
    2 when it raised after the selector had run. *)
Inductive Blocking (A : Type) :=
| Done (a : A)
| Interrupt
| Fails (e : exn) (started : nat).
Arguments Done {A} a.
Arguments Interrupt {A}.
Arguments Fails {A} e started.

(** Whether the blocking call got as far as starting its process number
    [n], counted from 0. *)
Definition started_process {A} (b : Blocking A) (n : nat) : bool :=
  match b with
  | Done _ | Interrupt => true
  | Fails _ started => Nat.ltb n started
  end.

(** The end of a blocking call that gave no value. *)
Definition blocking_exn {A} (b : Blocking A) : option exn :=
  match b with
  | Done _ => None
  | Interrupt => Some KeyboardInterrupt
  | Fails e _ => Some e
  end.

(** The read-only surroundings of one run. [*_raises] hold the message of
    the [OSError] the operation raises, when it does. *)
Record Env := mkEnv {
  cwd : string;                       (* [os.getcwd()] *)
  home : string;                      (* [os.path.expanduser("~")] *)
  system_platform : string;           (* [platform.system()] *)
  editor_var : option string;         (* [$EDITOR] *)
  installed : string -> bool;         (* [shutil.which(name)] is not [None] *)
  remove_raises : option string;      (* [os.remove] of the hand-off file *)
  open_raises : option string;        (* [open(handoff, "w")] *)
  write_raises : option string;       (* [f.write] / flush on close *)
  child : ChildOutcome                (* the dispatched child process *)
}.

(** [except Exception]: every error class, with the text of the error;
    not [KeyboardInterrupt], not [SystemExit]. *)
Definition as_Exception (e : exn) : option string :=
  match e with
  | FileNotFoundError m | OSError m | UnicodeDecodeError m => Some m
  | EOFError => Some "EOF when reading a line"
  | KeyboardInterrupt | SystemExit _ => None
  end.

(** [except OSError]: [OSError] and its subclass [FileNotFoundError]. *)
Definition as_OSError (e : exn) : option string :=
  match e with
  | FileNotFoundError m | OSError m => Some m
  | _ => None
  end.

Definition as_FileNotFoundError (e : exn) : option string :=
  match e with
  | FileNotFoundError m => Some m
  | _ => None
  end.

Definition as_KeyboardInterrupt (e : exn) : option unit :=
  match e with
  | KeyboardInterrupt => Some tt
  | _ => None
  end.

Inductive res (A : Type) :=
| Ret (a : A)
| Raise (e : exn).
Arguments Ret {A} a.
Arguments Raise {A} e.

(** Computations over the world that return or raise. *)
Definition M (A : Type) : Type := World -> res A * World.

Definition ret {A} (a : A) : M A := fun w => (Ret a, w).
Definition raise {A} (e : exn) : M A := fun w => (Raise e, w).
Definition bind {A B} (m : M A) (k : A -> M B) : M B :=
  fun w => match m w with
           | (Ret a, w') => k a w'
           | (Raise e, w') => (Raise e, w')
           end.

(** [try: m  except <class> as x: h x], the class given by [sel]. *)
Definition try_except {A X} (m : M A) (sel : exn -> option X) (h : X -> M A) : M A :=
  fun w => match m w with
           | (Ret a, w') => (Ret a, w')
           | (Raise e, w') =>
               match sel e with
               | Some x => h x w'
               | None => (Raise e, w')
               end
           end.

Definition effect (f : World -> World) : M unit := fun w => (Ret tt, f w).

Definition print (s : string) : M unit := effect (add_stdout s).
Definition sys_exit {A} (code : Z) : M A := raise (SystemExit code).

(** [os.path.exists(handoff)]. *)
Definition handoff_exists : M bool :=
  fun w => (Ret (match handoff w with Some _ => true | None => false end), w).

(** [os.remove(handoff)]. *)
Definition os_remove (env : Env) : M unit :=
  match remove_raises env with
  | Some msg => raise (OSError msg)
  | None => effect (set_handoff None)
  end.

(** [with open(handoff, "w") as f: f.write(text)]: opening truncates. *)
Definition write_text (env : Env) (text : string) : M unit :=
  match open_raises env with
  | Some msg => raise (OSError msg)
  | None =>
      bind (effect (set_handoff (Some "")))
           (fun _ => match write_raises env with
                     | Some msg => raise (OSError msg)
                     | None => effect (set_handoff (Some text))
                     end)
  end.

(** A child process started for a dispatch and waited for. *)
Definition launch (env : Env) (p : Proc) : M unit :=
  match child env with
  | Ran => effect (add_proc p)
  | NotFound => raise (FileNotFoundError "No such file or directory")
  | Failed msg => raise (OSError msg)
  | Interrupted => bind (effect (add_proc p)) (fun _ => raise KeyboardInterrupt)
  end.

(** [os.getenv("EDITOR", "vim")]. *)
Definition getenv_EDITOR (env : Env) : string :=
  match editor_var env with
  | Some e => e
  | None => "vim"
  end.

(** How the interpreter ends once [__main__] is left: the exit code, or
    the exception that crashed it. *)
Inductive Final :=
| Exited (code : Z)
| Crashed (e : exn).

Definition final_of {A} (r : res A) : Final :=
  match r with
  | Ret _ => Exited 0
  | Raise (SystemExit c) => Exited c
  | Raise e => Crashed e
  end.

End Host.

Declare Scope host_scope.
Delimit Scope host_scope with host.
Notation "x <- m ;; k" := (Host.bind m (fun x => k))
  (at level 61, m at next level, right associativity) : host_scope.
Notation "m ;;; k" := (Host.bind m (fun _ => k))
  (at level 61, right associativity) : host_scope.

Local Open Scope host_scope.

(** ** [class SearchConfig]: the same five fields in both files *)

Record SearchConfig := mkConfig {
  mode : string;              (* 'filename' or 'content' *)
  case_sensitive : bool;
  hidden_files : bool;
  editor : string;
  initial_query : string
}.

Definition set_mode (m : string) (c : SearchConfig) : SearchConfig :=
  mkConfig m (case_sensitive c) (hidden_files c) (editor c) (initial_query c).
Definition set_case_sensitive (b : bool) (c : SearchConfig) : SearchConfig :=
  mkConfig (mode c) b (hidden_files c) (editor c) (initial_query c).
Definition set_hidden_files (b : bool) (c : SearchConfig) : SearchConfig :=
  mkConfig (mode c) (case_sensitive c) b (editor c) (initial_query c).
Definition set_editor (e : string) (c : SearchConfig) : SearchConfig :=
  mkConfig (mode c) (case_sensitive c) (hidden_files c) e (initial_query c).
Definition set_initial_query (q : string) (c : SearchConfig) : SearchConfig :=
  mkConfig (mode c) (case_sensitive c) (hidden_files c) (editor c) q.

Definition NL : string := String Py.LF "".

Definition BINARY_DEPENDENCIES : list string := ["fzf"; "rg"; "bat"].

(** The [for dep in BINARY_DEPENDENCIES] loop of [check_dependencies]. *)
Definition missing_dependencies (env : Host.Env) : list string :=
  filter (fun dep =>
            (negb (Host.installed env dep)
             && negb (String.eqb dep "bat" && Host.installed env "batcat"))%bool)
         BINARY_DEPENDENCIES.

Definition get_bat_command (env : Host.Env) : string :=
  if Host.installed env "bat" then "bat"
  else if Host.installed env "batcat" then "batcat"
  else "bat".

(** [f"{filepath}:{line_number}" if line_number else filepath]. *)
Definition path_with_line (filepath : string) (line_number : option string) : string :=
  match line_number with
  | Some l => if Py.truthy l then filepath ++ ":" ++ l else filepath
  | None => filepath
  end.

(** ** src/seeker.py: the dashboard variant *)

Module Seeker.
Import Py Host.

Definition FAIL : string := String ESC "[91m".
Definition ENDC : string := String ESC "[0m".

Definition default_config : SearchConfig :=
  mkConfig "filename" false true "vim" "".

Definition check_dependencies (env : Env) : M unit :=
  match missing_dependencies env with
  | [] => ret tt
  | missing =>
      print (FAIL ++ "Error: Missing Binary Dependencies" ++ ENDC) ;;;
      print ("The following tools are required in PATH: " ++ Py.join ", " missing) ;;;
      print "Please install them using your package manager (brew, apt, winget, etc.)." ;;;
      sys_exit 1
  end.

(** The widget values [action_submit] reads. *)
Record Dashboard := mkDashboard {
  rb_content : bool;
  sw_case : bool;
  sw_hidden : bool;
  editor_select : string;
  query_input : string
}.

Definition action_submit (d : Dashboard) : SearchConfig :=
  let config := default_config in
  let config := set_mode (if rb_content d then "content" else "filename") config in
  let config := set_case_sensitive (sw_case d) config in
  let config := set_hidden_files (sw_hidden d) config in
  let config := set_editor (editor_select d) config in
  if String.eqb (mode config) "content"
  then set_initial_query (query_input d) config
  else config.

Definition open_file (env : Env) (filepath : string)
           (line_number : option string) (editor : string) : M unit :=
  if String.eqb editor "print" then
    print (path_with_line filepath line_number)
  else if String.eqb editor "folder" then
    let folder_path := PosixPath.dirname (PosixPath.abspath (cwd env) filepath) in
    try_except
      (if String.eqb (system_platform env) "Windows" then launch env (StartFile folder_path)
       else if String.eqb (system_platform env) "Darwin" then launch env (Exec ["open"; folder_path])
       else launch env (Exec ["xdg-open"; folder_path]))
      as_Exception
      (fun e => print (FAIL ++ "Error opening folder: " ++ e ++ ENDC))
  else if String.eqb editor "vscode" then
    let cmd := ["code"; "-g"; path_with_line filepath line_number] in
    try_except (launch env (Exec cmd)) as_FileNotFoundError
      (fun _ => print (FAIL ++ "Error: 'code' command not found." ++ ENDC))
  else if String.eqb editor "vim" then
    let args := match line_number with
                | Some l => if truthy l then ["+" ++ l; filepath] else [filepath]
                | None => [filepath]
                end in
    let vim_cmd := getenv_EDITOR env in
    try_except (launch env (Exec ([vim_cmd] ++ args)%list)) as_FileNotFoundError
      (fun _ => print (FAIL ++ "Error: " ++ vim_cmd ++ " not found." ++ ENDC))
  else ret tt.

Definition hidden_flag (config : SearchConfig) : string :=
  if hidden_files config then "--hidden" else "".

Definition case_flag (config : SearchConfig) : string :=
  if case_sensitive config then "--case-sensitive" else "--smart-case".

Definition source_cmd (config : SearchConfig) : string :=
  if String.eqb (mode config) "filename" then
    "rg --files " ++ hidden_flag config ++ " --glob '!.git/*'"
  else
    let query := if truthy (initial_query config) then initial_query config else "." in
    "rg --line-number --no-heading --color=always " ++ hidden_flag config
      ++ " " ++ case_flag config ++ " '" ++ query ++ "'".

Definition preview_cmd (config : SearchConfig) (bat_exe : string) : string :=
  if String.eqb (mode config) "filename" then
    bat_exe ++ " --style=numbers --color=always {}"
  else
    bat_exe ++ " --style=numbers --color=always --highlight-line {2} {1}".

Definition is_content (config : SearchConfig) : bool :=
  negb (String.eqb (mode config) "filename").

Definition header (config : SearchConfig) : string :=
  "ENTER: " ++ upper (editor config) ++ " | "
    ++ "CTRL-V: Vim | " ++ "CTRL-X: VS Code | " ++ "CTRL-O: Folder".

Definition fzf_cmd (config : SearchConfig) (bat_exe : string) : list string :=
  ["fzf"; "--ansi"; "--delimiter"; ":"; "--height"; "95%";
   "--layout"; "reverse"; "--border";
   "--header"; header config;
   "--expect=ctrl-v,ctrl-x,ctrl-o";
   "--preview"; preview_cmd config bat_exe;
   "--preview-window"; "right:60%:wrap"].

(** [pipe] is what the source | selector pipeline gives back: the
    selector's standard output, an interrupt while it is waited for, or the
    exception one of its two calls raises. *)
Definition run_fzf (config : SearchConfig) (bat_exe : string)
           (pipe : Blocking string) : M (option string * bool) :=
  try_except
    ((if started_process pipe 0
      then effect (add_proc (Shell (source_cmd config))) else ret tt) ;;;
     (if started_process pipe 1
      then effect (add_proc (Exec (fzf_cmd config bat_exe))) else ret tt) ;;;
     match pipe with
     | Done result_stdout => ret (Some (strip result_stdout), is_content config)
     | Interrupt => raise KeyboardInterrupt
     | Fails e _ => raise e
     end)
    as_KeyboardInterrupt
    (fun _ => ret (None, false)).

Definition parse_selection (raw_selection : string) (is_content_search : bool)
  : option string * option string :=
  if negb (truthy raw_selection) then (None, None)
  else
    let parts := split ":" raw_selection in
    if (is_content_search && Nat.leb 2 (List.length parts))%bool
    then (Some (nth 0 parts ""), Some (nth 1 parts ""))
    else (Some (strip raw_selection), None).

(** [tui] is what [app.run()] returns: [None] when the dashboard was quit. *)
Definition main (env : Env) (tui : option SearchConfig) (pipe : Blocking string) : M unit :=
  check_dependencies env ;;;
  let bat_exe := get_bat_command env in
  match tui with
  | None => sys_exit 0
  | Some config =>
      r <- run_fzf config bat_exe pipe ;;
      let '(output, is_content) := r in
      match output with
      | None => print "No selection made." ;;; sys_exit 0
      | Some output =>
          if negb (truthy output) then print "No selection made." ;;; sys_exit 0
          else
            match splitlines output with
            | key_pressed :: selection_text :: _ =>
                let '(filepath, line_num) := parse_selection selection_text is_content in
                match filepath with
                | None => sys_exit 1
                | Some filepath =>
                    if negb (truthy filepath) then sys_exit 1
                    else if String.eqb key_pressed "ctrl-v" then
                      open_file env filepath line_num "vim"
                    else if String.eqb key_pressed "ctrl-x" then
                      open_file env filepath line_num "vscode"
                    else if String.eqb key_pressed "ctrl-o" then
                      open_file env filepath line_num "folder"
                    else
                      open_file env filepath line_num (editor config)
                end
            | _ => sys_exit 0
            end
      end
  end.

(** [if __name__ == "__main__"]: the guarded call of [main]. *)
Definition program (env : Env) (tui : option SearchConfig) (pipe : Blocking string)
  : World -> Final * World :=
  fun w =>
    let '(r, w') := try_except (main env tui pipe) as_KeyboardInterrupt
                               (fun _ => sys_exit 0) w in
    (final_of r, w').

End Seeker.

(** ** src/yoink.py: the looping variant *)

Module Yoink.
Import Py Host.

Definition default_config : SearchConfig :=
  mkConfig "filename" false false "cd" "".

(** [rprint] of the rich library writes to standard output. The text
    recorded is the argument as the source hands it over, markup tags
    included; rich renders the tags away and wraps long lines. *)
Definition rprint (s : string) : M unit := print s.

Definition check_dependencies (env : Env) : M unit :=
  match missing_dependencies env with
  | [] => ret tt
  | missing =>
      rprint "[bold red]Error: Missing Binary Dependencies[/bold red]" ;;;
      rprint ("The following tools are required in PATH: [yellow]"
                ++ Py.join ", " missing ++ "[/yellow]") ;;;
      rprint "Please install them using your package manager (brew, apt, winget, etc.)." ;;;
      sys_exit 1
  end.

(** [os.path.expanduser("~/.yoink_last_path")]. *)
Definition last_path_file (env : Env) : string := home env ++ "/.yoink_last_path".

Definition open_file (env : Env) (filepath : string)
           (line_number : option string) (editor : string) : M unit :=
  if String.eqb editor "print" then
    print (path_with_line filepath line_number)
  else if String.eqb editor "cd" then
    let folder_path := PosixPath.dirname (PosixPath.abspath (cwd env) filepath) in
    let target_file := last_path_file env in
    try_except (write_text env folder_path) as_Exception
      (fun e => rprint ("[bold red]Error writing to " ++ target_file ++ ": " ++ e
                          ++ "[/bold red]"))
  else if String.eqb editor "folder" then
    let folder_path := PosixPath.dirname (PosixPath.abspath (cwd env) filepath) in
    try_except
      (if String.eqb (system_platform env) "Windows" then launch env (StartFile folder_path)
       else if String.eqb (system_platform env) "Darwin" then launch env (Exec ["open"; folder_path])
       else launch env (Exec ["xdg-open"; folder_path]))
      as_Exception
      (fun e => rprint ("[bold red]Error opening folder: " ++ e ++ "[/bold red]"))
  else if String.eqb editor "vscode" then
    let cmd := ["code"; "-g"; path_with_line filepath line_number] in
    try_except (launch env (Exec cmd)) as_FileNotFoundError
      (fun _ => rprint "[bold red]Error: 'code' command not found.[/bold red]")
  else if String.eqb editor "sublime" then
    let arg := path_with_line filepath line_number in
    let cmd := ["subl"; arg] in
    try_except (launch env (Exec cmd)) as_FileNotFoundError
      (fun _ => rprint "[bold red]Error: 'subl' command not found. Install Sublime Text CLI.[/bold red]")
  else if String.eqb editor "vim" then
    let args := match line_number with
                | Some l => if truthy l then ["+" ++ l; filepath] else [filepath]
                | None => [filepath]
                end in
    let vim_cmd := getenv_EDITOR env in
    try_except (launch env (Exec ([vim_cmd] ++ args)%list)) as_FileNotFoundError
      (fun _ => rprint ("[bold red]Error: " ++ vim_cmd ++ " not found.[/bold red]"))
  else ret tt.

Definition hidden_flag (config : SearchConfig) : string :=
  if hidden_files config then "--hidden" else "".

Definition case_flag (config : SearchConfig) : string :=
  if case_sensitive config then "--case-sensitive" else "--smart-case".

(** [query.replace("'", "'\\''")]: the replacement is the four characters
    quote, backslash, quote, quote. *)
Definition escape_quotes (query : string) : string :=
  replace "'" "'\''" query.

Definition source_cmd (config : SearchConfig) : string :=
  if String.eqb (mode config) "filename" then
    "rg --files " ++ hidden_flag config ++ " --glob '!.git/*'"
  else
    let query := if truthy (initial_query config) then initial_query config else "." in
    let query := escape_quotes query in
    "rg --line-number --no-heading --color=always " ++ hidden_flag config
      ++ " " ++ case_flag config ++ " '" ++ query ++ "'".

Definition preview_cmd (config : SearchConfig) (bat_exe : string) : string :=
  if String.eqb (mode config) "filename" then
    bat_exe ++ " --style=numbers --color=always {}"
  else
    bat_exe ++ " --style=numbers --color=always --highlight-line {2} {1}".

Definition preview_opts (config : SearchConfig) : string :=
  if String.eqb (mode config) "filename" then "right:60%:wrap"
  else "right:60%:wrap:+{2}-/2".

Definition is_content (config : SearchConfig) : bool :=
  negb (String.eqb (mode config) "filename").

Definition prompt_str (config : SearchConfig) : string :=
  if String.eqb (mode config) "filename" then "FILES> "
  else "RG:'" ++ initial_query config ++ "'> ".

Definition C_GREEN : string := String ESC "[1;32m".
Definition C_YELLOW : string := String ESC "[1;33m".
Definition C_DIM : string := String ESC "[2m".
Definition C_RESET : string := String ESC "[0m".

Definition status_line (config : SearchConfig) : string :=
  let mode_status :=
    if String.eqb (mode config) "filename" then C_GREEN ++ "[FILES]" ++ C_RESET
    else C_GREEN ++ "[CONTENT]" ++ C_RESET in
  let case_status :=
    if case_sensitive config then C_YELLOW ++ "[CASE:SENSITIVE]" ++ C_RESET
    else C_DIM ++ "[CASE:SMART]" ++ C_RESET in
  let hidden_status :=
    if hidden_files config then C_YELLOW ++ "[HIDDEN:ON]" ++ C_RESET
    else C_DIM ++ "[HIDDEN:OFF]" ++ C_RESET in
  mode_status ++ "  " ++ case_status ++ "  " ++ hidden_status.

Definition controls : string :=
  "ACTIONS: Enter(CD) | ^V(Vim) | ^X(Code) | ^T(Subl) | ^O(Explorer)" ++ NL
    ++ "TOGGLES: ^F(Files) | ^G(New Search) | ^S(Case) | ^H(Hidden)".

Definition fzf_cmd (config : SearchConfig) (bat_exe : string) : list string :=
  ["fzf"; "--ansi"; "--delimiter"; ":"; "--height"; "95%";
   "--layout"; "reverse"; "--border";
   "--prompt"; prompt_str config;
   "--header"; status_line config ++ NL ++ controls;
   "--expect=ctrl-v,ctrl-x,ctrl-o,ctrl-t,ctrl-f,ctrl-g,ctrl-s,ctrl-h";
   "--preview"; preview_cmd config bat_exe;
   "--preview-window"; preview_opts config].

(** [pipe] is what the source | selector pipeline gives back: the
    selector's standard output, an interrupt while it is waited for, or the
    exception one of its two calls raises. *)
Definition run_fzf (config : SearchConfig) (bat_exe : string)
           (pipe : Blocking string) : M (option string * bool) :=
  try_except
    ((if started_process pipe 0
      then effect (add_proc (Shell (source_cmd config))) else ret tt) ;;;
     (if started_process pipe 1
      then effect (add_proc (Exec (fzf_cmd config bat_exe))) else ret tt) ;;;
     match pipe with
     | Done result_stdout => ret (Some result_stdout, is_content config)
     | Interrupt => raise KeyboardInterrupt
     | Fails e _ => raise e
     end)
    as_KeyboardInterrupt
    (fun _ => ret (None, false)).

Definition parse_selection (raw_selection : string) (is_content_search : bool)
  : option string * option string :=
  if negb (truthy raw_selection) then (None, None)
  else
    let parts := split ":" raw_selection in
    if (is_content_search && Nat.leb 2 (List.length parts))%bool
    then (Some (nth 0 parts ""), Some (nth 1 parts ""))
    else (Some (strip raw_selection), None).

(** What the operator and the selector answer in one turn of the loop:
    the reply to the query prompt (read only when the loop asks) and the
    outcome of the pipeline. *)
Record IterIn := mkIterIn {
  prompt_in : Blocking string;
  pipe_in : Blocking string
}.

(** How one turn of [while True] ends: [continue] with the configuration
    as it now is, or [break]. *)
Inductive Flow :=
| Continue (config : SearchConfig)
| Break.

(** [Prompt.ask("[bold green]Search Query[/bold green]")]: the prompt is
    written, then the answer is read. *)
Definition prompt_ask (answer : Blocking string) : M string :=
  effect (show (Asked "[bold green]Search Query[/bold green]")) ;;;
  match answer with
  | Done q => ret q
  | Interrupt => raise KeyboardInterrupt
  | Fails e _ => raise e
  end.

(** The head of the loop body: ask for a query in content mode when none
    is set. *)
Definition needs_query (config : SearchConfig) : bool :=
  (String.eqb (mode config) "content" && negb (truthy (initial_query config)))%bool.

Definition prompt_query (config : SearchConfig) (answer : Blocking string)
  : M SearchConfig :=
  if needs_query config
  then
    effect (show Cleared) ;;;
    effect (show (PanelShown "[bold cyan]Content Search Mode[/bold cyan]"
                             "Enter text to search for (ripgrep)")) ;;;
    q <- prompt_ask answer ;;
    let q := if truthy q then q else "." in
    ret (set_initial_query q config)
  else ret config.

(** The key routing of the loop body, from [if key_pressed == 'ctrl-f']
    to the final [else]. *)
Definition route (env : Env) (config : SearchConfig) (is_content : bool)
           (key_pressed : string) (selection_text : option string) : M Flow :=
  if String.eqb key_pressed "ctrl-f" then
    ret (Continue (set_mode "filename" config))
  else if String.eqb key_pressed "ctrl-g" then
    ret (Continue (set_initial_query "" (set_mode "content" config)))
  else if String.eqb key_pressed "ctrl-s" then
    ret (Continue (set_case_sensitive (negb (case_sensitive config)) config))
  else if String.eqb key_pressed "ctrl-h" then
    ret (Continue (set_hidden_files (negb (hidden_files config)) config))
  else
    match selection_text with
    | None => ret (Continue config)
    | Some selection_text =>
        if negb (truthy selection_text) then ret (Continue config)
        else
          let '(filepath, line_num) := parse_selection selection_text is_content in
          match filepath with
          | None => sys_exit 1
          | Some filepath =>
              if negb (truthy filepath) then sys_exit 1
              else if String.eqb key_pressed "ctrl-v" then
                open_file env filepath line_num "vim" ;;; ret Break
              else if String.eqb key_pressed "ctrl-x" then
                open_file env filepath line_num "vscode" ;;; ret Break
              else if String.eqb key_pressed "ctrl-t" then
                open_file env filepath line_num "sublime" ;;; ret Break
              else if String.eqb key_pressed "ctrl-o" then
                open_file env filepath line_num "folder" ;;; ret Break
              else
                open_file env filepath line_num (editor config) ;;; ret Break
          end
    end.

(** From the selector's output to the routing: [output.splitlines()] and
    the [len(lines) < 2] cases. *)
Definition handle_output (env : Env) (config : SearchConfig)
           (output : option string) (is_content : bool) : M Flow :=
  match output with
  | None => sys_exit 0
  | Some output =>
      if negb (truthy output) then sys_exit 0
      else
        match splitlines output with
        | [] => sys_exit 0
        | [key_pressed] => route env config is_content key_pressed None
        | key_pressed :: selection_text :: _ =>
            route env config is_content key_pressed (Some selection_text)
        end
  end.

(** One turn of the [while True] loop. *)
Definition iteration (env : Env) (bat_exe : string) (config : SearchConfig)
           (i : IterIn) : M Flow :=
  config <- prompt_query config (prompt_in i) ;;
  r <- run_fzf config bat_exe (pipe_in i) ;;
  handle_output env config (fst r) (snd r).

(** How the loop stands once the answers given so far are used up. *)
Inductive LoopEnd :=
| Dispatched                          (* left by [break] *)
| Pending (config : SearchConfig).    (* waiting for the operator *)

Fixpoint loop (env : Env) (bat_exe : string) (config : SearchConfig)
         (ins : list IterIn) : M LoopEnd :=
  match ins with
  | [] => ret (Pending config)
  | i :: rest =>
      flow <- iteration env bat_exe config i ;;
      match flow with
      | Continue config' => loop env bat_exe config' rest
      | Break => ret Dispatched
      end
  end.

(** The removal of a hand-off file left by an earlier session. *)
Definition clear_last_path (env : Env) : M unit :=
  present <- handoff_exists ;;
  if present then try_except (os_remove env) as_OSError (fun _ => ret tt)
  else ret tt.

Definition main (env : Env) (ins : list IterIn) : M LoopEnd :=
  check_dependencies env ;;;
  let bat_exe := get_bat_command env in
  let config := default_config in
  clear_last_path env ;;;
  loop env bat_exe config ins.

(** Where a run stands: ended, or still in the loop. *)
Inductive Status :=
| Ended (f : Final)
| Searching (config : SearchConfig).

Definition status_of (r : res LoopEnd) : Status :=
  match r with
  | Ret (Pending config) => Searching config
  | Ret Dispatched => Ended (Exited 0)
  | Raise e => Ended (final_of (@Raise unit e))
  end.

(** [try: <body> except KeyboardInterrupt: sys.exit(0)] of [__main__]. *)
Definition guarded {A} (body : M A) : M A :=
  try_except body as_KeyboardInterrupt (fun _ => sys_exit 0).

(** [if __name__ == "__main__"]: the guarded call of [main]. *)
Definition program (env : Env) (ins : list IterIn) : World -> Status * World :=
  fun w =>
    let '(r, w') := guarded (main env ins) w in
    (status_of r, w').

End Yoink.

(** ** How [/bin/sh -c] reads a command line

    [Popen(source_cmd, shell=True)] hands the string to the POSIX shell.
    [Sh.lex] is the shell's token recognition with quote removal: blanks
    separate words; a single quote keeps everything literal up to the next
    single quote; a double quote keeps everything literal except backslash,
    dollar and backquote; outside quotes a backslash keeps the next
    character literal. Control operators, and the characters that start a
    substitution, come out as [Op]. [None]: the line ends inside a quote. *)

Module Sh.
Import Py.

Inductive token :=
| Word (w : string)
| Op (c : ascii).

Inductive quoting := Plain | InSingle | InDouble | InComment.

Definition is_blank (c : ascii) : bool :=
  (Ascii.eqb c " " || Ascii.eqb c (chr 9))%bool.

Definition is_operator (c : ascii) : bool :=
  (Ascii.eqb c ";" || Ascii.eqb c "&" || Ascii.eqb c "|" || Ascii.eqb c "<"
   || Ascii.eqb c ">" || Ascii.eqb c "(" || Ascii.eqb c ")" || Ascii.eqb c LF)%bool.

Definition is_substitution (c : ascii) : bool :=
  (Ascii.eqb c "$" || Ascii.eqb c "`")%bool.

(** The word being read, if one has been started. *)
Definition push (cur : option string) (c : ascii) : option string :=
  match cur with
  | Some w => Some (w ++ String c "")
  | None => Some (String c "")
  end.

Definition start (cur : option string) : option string :=
  match cur with
  | Some w => Some w
  | None => Some ""
  end.

Definition emit (cur : option string) (rest : option (list token))
  : option (list token) :=
  match cur with
  | Some w => option_map (cons (Word w)) rest
  | None => rest
  end.

Definition emit_op (c : ascii) (rest : option (list token)) : option (list token) :=
  option_map (cons (Op c)) rest.

Fixpoint lex (q : quoting) (cur : option string) (s : string)
  : option (list token) :=
  match s with
  | EmptyString =>
      match q with
      | Plain | InComment => emit cur (Some [])
      | InSingle | InDouble => None
      end
  | String c r =>
      match q with
      | InSingle =>
          if Ascii.eqb c "'" then lex Plain cur r
          else lex InSingle (push cur c) r
      | InDouble =>
          if Ascii.eqb c DQUOTE then lex Plain cur r
          else if Ascii.eqb c "\" then
            match r with
            | String c' r' =>
                if (Ascii.eqb c' DQUOTE || Ascii.eqb c' "\" || is_substitution c')%bool
                then lex InDouble (push cur c') r'
                else if Ascii.eqb c' LF then lex InDouble cur r'
                else lex InDouble (push (push cur c) c') r'
            | EmptyString => None
            end
          else if is_substitution c then
            emit cur (emit_op c (lex InDouble (Some "") r))
          else lex InDouble (push cur c) r
      | InComment =>
          if Ascii.eqb c LF then emit_op c (lex Plain None r)
          else lex InComment None r
      | Plain =>
          if Ascii.eqb c "'" then lex InSingle (start cur) r
          else if Ascii.eqb c DQUOTE then lex InDouble (start cur) r
          else if Ascii.eqb c "\" then
            match r with
            | String c' r' =>
                if Ascii.eqb c' LF then lex Plain cur r'
                else lex Plain (push cur c') r'
            | EmptyString => emit (push cur c) (Some [])
            end
          else if is_blank c then emit cur (lex Plain None r)
          else if (is_operator c || is_substitution c)%bool then
            emit cur (emit_op c (lex Plain None r))
          else if (Ascii.eqb c "#" && match cur with None => true | Some _ => false end)%bool
          then lex InComment None r
          else lex Plain (push cur c) r
      end
  end.

(** The tokens of a whole command line. *)
Definition tokens (cmd : string) : option (list token) := lex Plain None cmd.

(** A command line that is one simple command: it lexes, and to words only. *)
Definition simple_command (cmd : string) (argv : list string) : Prop :=
  tokens cmd = Some (map Word argv).

End Sh.

(** ** What the specification calls an integer *)

Module Spec.
Import Py.

Definition is_digit (c : ascii) : bool :=
  let n := nat_of_ascii c in (Nat.leb 48 n && Nat.leb n 57)%bool.

Fixpoint all_digits (s : string) : bool :=
  match s with
  | EmptyString => true
  | String c r => (is_digit c && all_digits r)%bool
  end.

(** The specification's "parsed as an integer": the text of a line number
    is, blanks around it apart, an optional sign and decimal digits. *)
Definition valid_integer (s : string) : bool :=
  match strip s with
  | EmptyString => false
  | String c r =>
      if (Ascii.eqb c "+" || Ascii.eqb c "-")%bool
      then (truthy r && all_digits r)%bool
      else all_digits (String c r)
  end.

End Spec.

(** ** Hosts, configurations and reference data of the properties *)

(** The editors [open_file] of the looping variant has a branch for. *)
Definition recognized_editors : list string :=
  ["print"; "cd"; "folder"; "vscode"; "sublime"; "vim"].

(** A host on which everything is installed and nothing fails. *)
Definition quiet_env : Host.Env :=
  Host.mkEnv "/work" "/home/u" "Linux" None (fun _ => true) None None None Host.Ran.

(** A host whose hand-off file can be neither removed nor opened for
    writing (a read-only home directory). *)
Definition readonly_env : Host.Env :=
  Host.mkEnv "/work" "/home/u" "Linux" None (fun _ => true)
             (Some "[Errno 13] Permission denied")
             (Some "[Errno 13] Permission denied") None Host.Ran.

(** The search the configuration asks for, as an argument vector. *)
Definition search_argv (config : SearchConfig) : list string :=
  let hidden := if hidden_files config then ["--hidden"] else [] in
  if String.eqb (mode config) "filename" then
    (["rg"; "--files"] ++ hidden ++ ["--glob"; "!.git/*"])%list
  else
    (["rg"; "--line-number"; "--no-heading"; "--color=always"] ++ hidden
       ++ [if case_sensitive config then "--case-sensitive" else "--smart-case";
           if Py.truthy (initial_query config) then initial_query config else "."])%list.

(** The dashboard filled in for a content search for [query], all else as
    the dashboard starts out. *)
Definition dashboard_content_search (query : string) : SearchConfig :=
  Seeker.action_submit (Seeker.mkDashboard true false true "vim" query).

(** A host on which the dispatched child process is interrupted. *)
Definition interrupted_child_env : Host.Env :=
  Host.mkEnv "/work" "/home/u" "Linux" None (fun _ => true) None None None
             Host.Interrupted.

(** Text with no line boundary in it: one line of the selector's list. *)
Fixpoint one_line (s : string) : bool :=
  match s with
  | EmptyString => true
  | String c r => (negb (Py.is_linebreak c) && one_line r)%bool
  end.

(** What the selector writes for a plain confirm on [selection]: an empty
    key line, then the selected line. *)
Definition plain_confirm (selection : string) : string := NL ++ selection ++ NL.

(** Text with no single quote in it. *)
Fixpoint no_quote (s : string) : bool :=
  match s with
  | EmptyString => true
  | String c r => (negb (Ascii.eqb c "'") && no_quote r)%bool
  end.

(** Text with no colon in it. *)
Fixpoint no_colon (s : string) : bool :=
  match s with
  | EmptyString => true
  | String c r => (negb (Ascii.eqb c ":") && no_colon r)%bool
  end.

(** The keys [route] of the looping variant tests for: the four toggles,
    and the four action keys with the editor each one dispatches to, in the
    order of the selector's [--expect] list. *)
Definition toggle_keys : list string := ["ctrl-f"; "ctrl-g"; "ctrl-s"; "ctrl-h"].

Definition yoink_action_keys : list (string * string) :=
  [("ctrl-v", "vim"); ("ctrl-x", "vscode"); ("ctrl-o", "folder"); ("ctrl-t", "sublime")].

(** The action keys [main] of the dashboard variant tests for. *)
Definition seeker_action_keys : list (string * string) :=
  [("ctrl-v", "vim"); ("ctrl-x", "vscode"); ("ctrl-o", "folder")].

(** What the selector writes when [key] is pressed on [selection]. *)
Definition key_on (key selection : string) : string := key ++ NL ++ selection ++ NL.

(** The two processes of the pipeline, as each variant launches them. *)
Definition yoink_launched (config : SearchConfig) (bat_exe : string) (w : Host.World)
  : Host.World :=
  Host.add_proc (Host.Exec (Yoink.fzf_cmd config bat_exe))
                (Host.add_proc (Host.Shell (Yoink.source_cmd config)) w).

Definition seeker_launched (config : SearchConfig) (bat_exe : string) (w : Host.World)
  : Host.World :=
  Host.add_proc (Host.Exec (Seeker.fzf_cmd config bat_exe))
                (Host.add_proc (Host.Shell (Seeker.source_cmd config)) w).

(** A host with neither [bat] nor [batcat]. *)
Definition no_bat_env : Host.Env :=
  Host.mkEnv "/work" "/home/u" "Linux" None
             (fun name => (String.eqb name "fzf" || String.eqb name "rg")%bool)
             None None None Host.Ran.

(** A host where the previewer is installed as [batcat] only. *)
Definition batcat_env : Host.Env :=
  Host.mkEnv "/work" "/home/u" "Linux" None
             (fun name => negb (String.eqb name "bat")) None None None Host.Ran.

(** A host on which the dispatched binary does not exist. *)
Definition no_editor_env : Host.Env :=
  Host.mkEnv "/work" "/home/u" "Linux" None (fun _ => true) None None None
             Host.NotFound.

(** A host on which launching the dispatched binary fails otherwise. *)
Definition failing_child_env : Host.Env :=
  Host.mkEnv "/work" "/home/u" "Linux" None (fun _ => true) None None None
             (Host.Failed "[Errno 13] Permission denied").

(** The editors [open_file] of the dashboard variant has a branch for. *)
Definition seeker_recognized_editors : list string :=
  ["print"; "folder"; "vscode"; "vim"].



(** What the head of a loop turn writes to standard output when it asks for
    a query: the screen is cleared, the panel is shown, the prompt is
    written. *)
Definition prompt_texts : list string :=
  map Host.render
      [Host.Cleared;
       Host.PanelShown "[bold cyan]Content Search Mode[/bold cyan]"
                       "Enter text to search for (ripgrep)";
       Host.Asked "[bold green]Search Query[/bold green]"].


(** The world once the head of a loop turn has asked for a query. *)
Definition query_asked (w : Host.World) : Host.World :=
  Host.show (Host.Asked "[bold green]Search Query[/bold green]")
    (Host.show (Host.PanelShown "[bold cyan]Content Search Mode[/bold cyan]"
                                "Enter text to search for (ripgrep)")
       (Host.show Host.Cleared w)).

(** What a loop turn that starts from [config] writes before its pipeline. *)
Definition turn_texts (config : SearchConfig) : list string :=
  if Yoink.needs_query config then prompt_texts else [].

(** * Properties *)

(** ** Strings *)

Lemma splitlines_cons_truthy (s l : string) (ls : list string) :
  Py.splitlines s = l :: ls -> Py.truthy s = true.
Proof.
  destruct s as [|c r]; simpl; [discriminate | reflexivity].
Qed.

Lemma split_two_truthy (s p0 p1 : string) (ps : list string) :
  Py.split ":" s = p0 :: p1 :: ps -> Py.truthy s = true.
Proof.
  destruct s as [|c r]; simpl; [discriminate | reflexivity].
Qed.

Lemma config_eta (c : SearchConfig) :
  mkConfig (mode c) (case_sensitive c) (hidden_files c) (editor c) (initial_query c) = c.
Proof. destruct c; reflexivity. Qed.

(** ** The Result Parser *)

Section ResultParser.
Variables (raw p0 p1 : string) (rest : list string).
Hypothesis parts : Py.split ":" raw = p0 :: p1 :: rest.

Lemma yoink_parse_content : Yoink.parse_selection raw true = (Some p0, Some p1).
Proof.
  unfold Yoink.parse_selection.
  rewrite (split_two_truthy _ _ _ _ parts), parts. reflexivity.
Qed.

Lemma seeker_parse_content : Seeker.parse_selection raw true = (Some p0, Some p1).
Proof.
  unfold Seeker.parse_selection.
  rewrite (split_two_truthy _ _ _ _ parts), parts. reflexivity.
Qed.
End ResultParser.

(** C3 (as amended). In content mode a raw selection with at least two
    colon-separated parts parses, in both front ends, to path = part 0 and
    line number = part 1 taken as text, whatever part 1 is: no integer is
    parsed and nothing is replaced by "no line number". *)
Theorem parse_selection_content_keeps_second_part
        (raw p0 p1 : string) (rest : list string) :
  Py.split ":" raw = p0 :: p1 :: rest ->
  Yoink.parse_selection raw true = (Some p0, Some p1)
  /\ Seeker.parse_selection raw true = (Some p0, Some p1).
Proof.
  intros H. split.
  - exact (yoink_parse_content _ _ _ _ H).
  - exact (seeker_parse_content _ _ _ _ H).
Qed.

Lemma parse_selection_content_keeps_second_part_witness :
  Py.split ":" "main.go:xx:foo" = ["main.go"; "xx"; "foo"]
  /\ Yoink.parse_selection "main.go:xx:foo" true = (Some "main.go", Some "xx")
  /\ Seeker.parse_selection "main.go:xx:foo" true = (Some "main.go", Some "xx").
Proof.
  split; [reflexivity|].
  apply (parse_selection_content_keeps_second_part "main.go:xx:foo" "main.go" "xx" ["foo"]).
  reflexivity.
Defined.

(** C3 (as stated) fails: it is not the case that every content-mode
    selection whose second part is not an integer parses to "no line
    number"; "main.go:xx:foo" keeps the line "xx", in either front end. *)
Lemma parse_selection_malformed_line_not_dropped :
  ~ (forall raw p0 p1 rest,
        Py.split ":" raw = p0 :: p1 :: rest ->
        Spec.valid_integer p1 = false ->
        Yoink.parse_selection raw true = (Some p0, None))
  /\ ~ (forall raw p0 p1 rest,
        Py.split ":" raw = p0 :: p1 :: rest ->
        Spec.valid_integer p1 = false ->
        Seeker.parse_selection raw true = (Some p0, None)).
Proof.
  split; intros H;
    specialize (H "main.go:xx:foo" "main.go" "xx" ["foo"] eq_refl eq_refl);
    vm_compute in H; discriminate H.
Qed.

(** C9. The two front ends parse a selection alike: the same path and the
    same line number for every raw selection and either value of the
    content-mode flag. *)
Theorem parse_selection_same_in_both (raw : string) (is_content_search : bool) :
  Seeker.parse_selection raw is_content_search
  = Yoink.parse_selection raw is_content_search.
Proof.
  unfold Seeker.parse_selection, Yoink.parse_selection.
  destruct (negb (Py.truthy raw)); [reflexivity|].
  destruct (is_content_search && Nat.leb 2 (List.length (Py.split ":" raw)))%bool;
    reflexivity.
Qed.

(** ** Toggle keys of the looping variant *)

Lemma handle_output_routes (env : Host.Env) (config : SearchConfig) (output key : string)
      (rest : list string) (is_content : bool) :
  Py.splitlines output = key :: rest ->
  Yoink.handle_output env config (Some output) is_content
  = Yoink.route env config is_content key (hd_error rest).
Proof.
  intros H. unfold Yoink.handle_output.
  rewrite (splitlines_cons_truthy _ _ _ H), H.
  destruct rest; reflexivity.
Qed.

Lemma prompt_query_sets_query_only (config c1 : SearchConfig)
      (answer : Host.Blocking string) (w w1 : Host.World) :
  Yoink.prompt_query config answer w = (Host.Ret c1, w1) ->
  exists q, c1 = set_initial_query q config.
Proof.
  unfold Yoink.prompt_query.
  destruct (Yoink.needs_query config).
  - destruct answer as [q| |e n]; cbn; intros H; try discriminate H.
    injection H as <- _. eexists. reflexivity.
  - cbn. intros H. injection H as <- _. exists (initial_query config).
    unfold set_initial_query. now rewrite config_eta.
Qed.

Lemma yoink_run_fzf_done (config : SearchConfig) (bat_exe out : string) (w : Host.World) :
  Yoink.run_fzf config bat_exe (Host.Done out) w
  = (Host.Ret (Some out, Yoink.is_content config), yoink_launched config bat_exe w).
Proof. reflexivity. Qed.

(** C7. Whenever the looping variant processes ctrl-g, that is in every
    turn of the loop whose prompt stage returned and whose selector output
    has ctrl-g as its first line, the turn continues with mode "content"
    and an empty initial query, whatever the query was, every other field as
    before; the loop goes on from that configuration; and the next turn,
    before anything else, clears the screen and asks the operator for a
    query, which is the one it then searches for. *)
Theorem ctrl_g_enters_content_mode_and_clears_query
        (env : Host.Env) (bat_exe : string) (config c1 : SearchConfig)
        (i : Yoink.IterIn) (output : string) (more : list string)
        (rest : list Yoink.IterIn) (w w1 : Host.World) :
  Yoink.prompt_query config (Yoink.prompt_in i) w = (Host.Ret c1, w1) ->
  Yoink.pipe_in i = Host.Done output ->
  Py.splitlines output = "ctrl-g" :: more ->
  let config' := mkConfig "content" (case_sensitive config) (hidden_files config)
                          (editor config) "" in
  let w2 := yoink_launched c1 bat_exe w1 in
  Yoink.iteration env bat_exe config i w = (Host.Ret (Yoink.Continue config'), w2)
  /\ Yoink.loop env bat_exe config (i :: rest) w = Yoink.loop env bat_exe config' rest w2
  /\ forall (j : Yoink.IterIn) (q : string),
      Yoink.prompt_in j = Host.Done q ->
      let asked := set_initial_query (if Py.truthy q then q else ".") config' in
      Yoink.iteration env bat_exe config' j w2
      = (r <- Yoink.run_fzf asked bat_exe (Yoink.pipe_in j) ;;
         Yoink.handle_output env asked (fst r) (snd r)) (query_asked w2).
Proof.
  intros Hp Hpipe Hl config' w2.
  assert (I : Yoink.iteration env bat_exe config i w
              = (Host.Ret (Yoink.Continue config'), w2)).
  { destruct (prompt_query_sets_query_only _ _ _ _ _ Hp) as [q0 ->].
    unfold Yoink.iteration, Host.bind. rewrite Hp, Hpipe, yoink_run_fzf_done.
    cbn [fst snd]. rewrite (handle_output_routes _ _ _ _ _ _ Hl). reflexivity. }
  split; [exact I|]. split.
  - cbn [Yoink.loop]. unfold Host.bind. rewrite I. reflexivity.
  - intros j q Hj asked. unfold Yoink.iteration, Yoink.prompt_query.
    change (Yoink.needs_query config') with true. cbv iota.
    rewrite Hj. reflexivity.
Qed.

Lemma ctrl_g_enters_content_mode_and_clears_query_witness :
  let config := mkConfig "content" true false "cd" "TODO" in
  let i := Yoink.mkIterIn (Host.Done "") (Host.Done ("ctrl-g" ++ NL ++ "src/a.py")) in
  let j := Yoink.mkIterIn (Host.Done "FIXME") (Host.Done "") in
  let w := Host.mkWorld None [] [] [] in
  Yoink.iteration quiet_env "bat" config i w
  = (Host.Ret (Yoink.Continue (mkConfig "content" true false "cd" "")),
     yoink_launched config "bat" w)
  /\ Yoink.loop quiet_env "bat" config [i; j] w
     = Yoink.loop quiet_env "bat" (mkConfig "content" true false "cd" "") [j]
                  (yoink_launched config "bat" w)
  /\ Host.stdout (snd (Yoink.loop quiet_env "bat" config [i; j] w)) = prompt_texts
  /\ In (Host.Shell (Yoink.source_cmd (mkConfig "content" true false "cd" "FIXME")))
        (Host.procs (snd (Yoink.loop quiet_env "bat" config [i; j] w))).
Proof.
  cbv zeta.
  destruct (ctrl_g_enters_content_mode_and_clears_query quiet_env "bat"
              (mkConfig "content" true false "cd" "TODO")
              (mkConfig "content" true false "cd" "TODO")
              (Yoink.mkIterIn (Host.Done "") (Host.Done ("ctrl-g" ++ NL ++ "src/a.py")))
              ("ctrl-g" ++ NL ++ "src/a.py") ["src/a.py"]
              [Yoink.mkIterIn (Host.Done "FIXME") (Host.Done "")]
              (Host.mkWorld None [] [] []) (Host.mkWorld None [] [] [])
              eq_refl eq_refl eq_refl) as (I & L & _).
  split; [exact I|]. split; [exact L|]. rewrite L.
  split; [reflexivity|]. cbn. do 2 right. left. reflexivity.
Defined.

(** C8. In the looping variant, ctrl-s processed twice in a row gives back
    the configuration it started from, and so does ctrl-h; one ctrl-s
    changes [case_sensitive] alone, one ctrl-h changes [hidden_files]
    alone. *)
Theorem case_and_hidden_toggles_are_involutions
        (env : Host.Env) (config : SearchConfig) (out1 out2 : string)
        (rest1 rest2 : list string) (ic1 ic2 : bool) (w : Host.World)
        (key : string) :
  (key = "ctrl-s" \/ key = "ctrl-h") ->
  Py.splitlines out1 = key :: rest1 ->
  Py.splitlines out2 = key :: rest2 ->
  let once :=
    if String.eqb key "ctrl-s"
    then mkConfig (mode config) (negb (case_sensitive config)) (hidden_files config)
                  (editor config) (initial_query config)
    else mkConfig (mode config) (case_sensitive config) (negb (hidden_files config))
                  (editor config) (initial_query config) in
  Yoink.handle_output env config (Some out1) ic1 w = (Host.Ret (Yoink.Continue once), w)
  /\ Yoink.handle_output env once (Some out2) ic2 w = (Host.Ret (Yoink.Continue config), w).
Proof.
  intros Hkey H1 H2 once.
  rewrite (handle_output_routes _ _ _ _ _ _ H1), (handle_output_routes _ _ _ _ _ _ H2).
  destruct Hkey; subst key once; cbn; unfold set_case_sensitive, set_hidden_files; cbn;
    rewrite negb_involutive, config_eta; split; reflexivity.
Qed.

Lemma case_and_hidden_toggles_are_involutions_witness :
  let c := mkConfig "content" false true "cd" "TODO" in
  let w := Host.mkWorld None [] [] [] in
  Yoink.handle_output quiet_env c (Some ("ctrl-s" ++ NL)) true w
  = (Host.Ret (Yoink.Continue (mkConfig "content" true true "cd" "TODO")), w)
  /\ Yoink.handle_output quiet_env (mkConfig "content" true true "cd" "TODO")
                         (Some ("ctrl-s" ++ NL ++ "a.py:3:x")) true w
     = (Host.Ret (Yoink.Continue c), w).
Proof.
  cbv zeta.
  apply (case_and_hidden_toggles_are_involutions
           quiet_env (mkConfig "content" false true "cd" "TODO")
           ("ctrl-s" ++ NL) ("ctrl-s" ++ NL ++ "a.py:3:x") [] ["a.py:3:x"]
           true true (Host.mkWorld None [] [] []) "ctrl-s");
    [left; reflexivity | reflexivity | reflexivity].
Defined.

(** ** Dispatch actions of the looping variant *)

Lemma eqb_of_not_in (x y : string) (l : list string) :
  ~ In x l -> In y l -> String.eqb x y = false.
Proof.
  intros Hx Hy. apply String.eqb_neq. intros ->. exact (Hx Hy).
Qed.

(** C10. In the looping variant [open_file] with an editor outside
    "print", "cd", "folder", "vscode", "sublime", "vim" returns at once:
    nothing is printed, written or launched, the world is as it was. *)
Theorem open_file_unrecognized_editor_does_nothing
        (env : Host.Env) (filepath : string) (line_number : option string)
        (editor : string) (w : Host.World) :
  ~ In editor recognized_editors ->
  Yoink.open_file env filepath line_number editor w = (Host.Ret tt, w).
Proof.
  intros H. unfold Yoink.open_file.
  assert (E : forall y, In y recognized_editors -> String.eqb editor y = false)
    by (intros y Hy; exact (eqb_of_not_in _ _ _ H Hy)).
  rewrite !E by (unfold recognized_editors; simpl; tauto).
  reflexivity.
Qed.

Lemma open_file_unrecognized_editor_does_nothing_witness :
  Yoink.open_file quiet_env "/home/u/proj/file.txt" (Some "42") "system"
                  (Host.mkWorld (Some "/old/dir") ["earlier output"] [] [])
  = (Host.Ret tt, Host.mkWorld (Some "/old/dir") ["earlier output"] [] []).
Proof.
  apply (open_file_unrecognized_editor_does_nothing quiet_env "/home/u/proj/file.txt"
           (Some "42") "system" (Host.mkWorld (Some "/old/dir") ["earlier output"] [] [])).
  unfold recognized_editors. simpl.
  intros [H|[H|[H|[H|[H|[H|[]]]]]]]; discriminate H.
Defined.

(** A dispatch other than "cd" leaves the hand-off file alone. *)
Lemma open_file_keeps_handoff (env : Host.Env) (filepath : string)
      (line_number : option string) (editor : string) (w : Host.World) :
  editor <> "cd" ->
  Host.handoff (snd (Yoink.open_file env filepath line_number editor w)) = Host.handoff w.
Proof.
  intros H. apply String.eqb_neq in H. unfold Yoink.open_file. rewrite H.
  unfold Host.try_except, Host.launch, Host.print, Yoink.rprint, Host.effect,
    Host.raise, Host.bind, Host.ret.
  repeat match goal with
         | |- context [if ?b then _ else _] => destruct b
         end;
    destruct (Host.child env); reflexivity.
Qed.


(** C6 (as amended). A change-directory dispatch on
    /home/u/proj/file.txt, whatever the hand-off file held before and
    whatever the working directory and the line number are, returns
    normally and does one of three things. When the file can be opened for
    writing and written, it is left holding exactly /home/u/proj, and
    nothing else changes. When opening it is refused, the file keeps what it
    held and the error is reported in one line. When it is opened and the
    write then raises, the file is left empty and the error is reported in
    one line. *)
Theorem cd_dispatch_overwrites_handoff
        (env : Host.Env) (line_number : option string) (w : Host.World) :
  let report msg :=
    "[bold red]Error writing to " ++ Yoink.last_path_file env ++ ": " ++ msg
      ++ "[/bold red]" in
  Yoink.open_file env "/home/u/proj/file.txt" line_number "cd" w
  = (Host.Ret tt,
     match Host.open_raises env, Host.write_raises env with
     | None, None => Host.set_handoff (Some "/home/u/proj") w
     | Some msg, _ => Host.add_stdout (report msg) w
     | None, Some msg => Host.add_stdout (report msg) (Host.set_handoff (Some "") w)
     end).
Proof.
  unfold Yoink.open_file. cbn [String.eqb Ascii.eqb Bool.eqb].
  unfold Host.try_except, Host.write_text.
  destruct (Host.open_raises env), (Host.write_raises env); reflexivity.
Qed.

Lemma cd_dispatch_overwrites_handoff_witness :
  Yoink.open_file quiet_env "/home/u/proj/file.txt" (Some "42") "cd"
                  (Host.mkWorld (Some ("/somewhere/else" ++ NL ++ "more")) [] [] [])
  = (Host.Ret tt, Host.mkWorld (Some "/home/u/proj") [] [] []).
Proof.
  rewrite (cd_dispatch_overwrites_handoff quiet_env (Some "42")
             (Host.mkWorld (Some ("/somewhere/else" ++ NL ++ "more")) [] [] [])).
  reflexivity.
Defined.

(** C6 (as stated) fails: where opening the hand-off file is refused, the
    change-directory dispatch reports the error and returns, and the file
    still holds what it held before. *)
Lemma cd_dispatch_refused_keeps_old_content :
  let w := Host.mkWorld (Some "/old/dir") [] [] [] in
  let w' := snd (Yoink.open_file readonly_env "/home/u/proj/file.txt" None "cd" w) in
  Host.handoff w' = Some "/old/dir"
  /\ Host.handoff w' <> Some "/home/u/proj"
  /\ Host.stdout w'
     = ["[bold red]Error writing to /home/u/.yoink_last_path: [Errno 13] Permission denied[/bold red]"].
Proof.
  cbv zeta. split; [reflexivity|]. split; [|reflexivity].
  vm_compute. discriminate.
Qed.

(** ** Quoting of the search command *)

Lemma append_nil_r (s : string) : s ++ "" = s.
Proof. induction s as [|c s IH]; simpl; [reflexivity | now rewrite IH]. Qed.

Lemma append_assoc (a b c : string) : (a ++ b) ++ c = a ++ (b ++ c).
Proof. induction a as [|x a IH]; simpl; [reflexivity | now rewrite IH]. Qed.

Lemma lex_single_other (c : ascii) (cur : option string) (r : string) :
  Ascii.eqb c "'" = false ->
  Sh.lex Sh.InSingle cur (String c r) = Sh.lex Sh.InSingle (Sh.push cur c) r.
Proof. intros H. cbn [Sh.lex]. rewrite H. reflexivity. Qed.

(** Inside single quotes the escaped query reads back as the query itself:
    the shell is in the quote again after each escaped quote, and the
    closing quote ends the quoted text. *)
Lemma lex_escaped_query (q cur rest : string) :
  Sh.lex Sh.InSingle (Some cur) (Yoink.escape_quotes q ++ String "'" rest)
  = Sh.lex Sh.Plain (Some (cur ++ q)) rest.
Proof.
  revert cur. induction q as [|c q IH]; intros cur.
  - rewrite append_nil_r. reflexivity.
  - unfold Yoink.escape_quotes in *. cbn [Py.replace].
    destruct (Ascii.eqb c "'") eqn:E.
    + apply Ascii.eqb_eq in E. subst c.
      change (Sh.lex Sh.InSingle (Some cur)
                (("'\''" ++ Py.replace "'" "'\''" q) ++ String "'" rest))
        with (Sh.lex Sh.InSingle (Some (cur ++ "'"))
                (Py.replace "'" "'\''" q ++ String "'" rest)).
      rewrite IH, append_assoc. reflexivity.
    + change ((String c (Py.replace "'" "'\''" q)) ++ String "'" rest)
        with (String c (Py.replace "'" "'\''" q ++ String "'" rest)).
      rewrite (lex_single_other _ _ _ E). cbn [Sh.push].
      rewrite IH, append_assoc. reflexivity.
Qed.

(** X10. In the looping variant the shell reads the search command of
    every configuration as one simple command whose words are the intended
    search: the query, whatever it contains, is the last word, verbatim. *)
Lemma yoink_source_cmd_is_the_intended_search (config : SearchConfig) :
  Sh.simple_command (Yoink.source_cmd config) (search_argv config).
Proof.
  unfold Sh.simple_command, Sh.tokens, Yoink.source_cmd, search_argv,
    Yoink.hidden_flag, Yoink.case_flag.
  destruct (String.eqb (mode config) "filename").
  - destruct (hidden_files config); reflexivity.
  - set (q := if Py.truthy (initial_query config) then initial_query config else ".").
    assert (Q : Sh.lex Sh.InSingle (Some "") (Yoink.escape_quotes q ++ "'")
                = Some [Sh.Word q])
      by (rewrite lex_escaped_query; reflexivity).
    destruct (hidden_files config), (case_sensitive config);
      cbn -[Yoink.escape_quotes]; rewrite Q; reflexivity.
Qed.

(** C1 (the code at the failing inputs). The dashboard variant puts the
    query between single quotes as it is. With the query [it's] the command
    ends inside a quote; with the query [x'; touch pwned; '] the shell reads
    three commands, the second one [touch pwned]. The looping variant reads
    the same queries as the one last word of the one search command. *)
Theorem seeker_source_cmd_does_not_escape_quotes :
  Seeker.source_cmd (dashboard_content_search "it's")
  = "rg --line-number --no-heading --color=always --hidden --smart-case 'it's'"
  /\ Sh.tokens (Seeker.source_cmd (dashboard_content_search "it's")) = None
  /\ Sh.tokens (Seeker.source_cmd (dashboard_content_search "x'; touch pwned; '"))
     = Some [Sh.Word "rg"; Sh.Word "--line-number"; Sh.Word "--no-heading";
             Sh.Word "--color=always"; Sh.Word "--hidden"; Sh.Word "--smart-case";
             Sh.Word "x"; Sh.Op ";"; Sh.Word "touch"; Sh.Word "pwned"; Sh.Op ";";
             Sh.Word ""]
  /\ Yoink.source_cmd (dashboard_content_search "it's")
     = "rg --line-number --no-heading --color=always --hidden --smart-case 'it'\''s'"
  /\ Sh.tokens (Yoink.source_cmd (dashboard_content_search "x'; touch pwned; '"))
     = Some [Sh.Word "rg"; Sh.Word "--line-number"; Sh.Word "--no-heading";
             Sh.Word "--color=always"; Sh.Word "--hidden"; Sh.Word "--smart-case";
             Sh.Word "x'; touch pwned; '"].
Proof.
  repeat split; vm_compute; reflexivity.
Qed.

(** ** Plain confirm *)

(** X5. In the looping variant an empty key line with a selection whose
    parsed path is not empty is dispatched with the configured default
    action, and the loop is left. *)
Lemma yoink_enter_dispatches_default_action
      (env : Host.Env) (config : SearchConfig) (output selection_text filepath : string)
      (line_num : option string) (rest : list string) (is_content : bool) :
  Py.splitlines output = "" :: selection_text :: rest ->
  Yoink.parse_selection selection_text is_content = (Some filepath, line_num) ->
  Py.truthy filepath = true ->
  Yoink.handle_output env config (Some output) is_content
  = (Yoink.open_file env filepath line_num (editor config) ;;; Host.ret Yoink.Break).
Proof.
  intros Hl Hp Hf.
  rewrite (handle_output_routes _ _ _ _ _ _ Hl). cbn [hd_error].
  unfold Yoink.route. cbn [String.eqb].
  assert (Hs : Py.truthy selection_text = true).
  { destruct selection_text; [|reflexivity].
    vm_compute in Hp. discriminate Hp. }
  rewrite Hs. cbn [negb]. rewrite Hp. cbv beta iota. rewrite Hf. reflexivity.
Qed.

Lemma yoink_enter_dispatches_default_action_witness :
  Py.splitlines (plain_confirm "main.go:10:// TODO fix")
  = [""; "main.go:10:// TODO fix"]
  /\ Yoink.handle_output quiet_env (mkConfig "content" false true "print" "TODO")
                         (Some (plain_confirm "main.go:10:// TODO fix")) true
                         (Host.mkWorld None [] [] [])
     = (Host.Ret Yoink.Break, Host.mkWorld None ["main.go:10"] [] []).
Proof.
  split; [reflexivity|].
  rewrite (yoink_enter_dispatches_default_action quiet_env
             (mkConfig "content" false true "print" "TODO")
             (plain_confirm "main.go:10:// TODO fix") "main.go:10:// TODO fix"
             "main.go" (Some "10") [] true);
    reflexivity.
Defined.

Lemma splitlines_one_line (s : string) :
  one_line s = true -> Py.splitlines s = if Py.truthy s then [s] else [].
Proof.
  induction s as [|c r IH]; [reflexivity|].
  cbn [one_line Py.splitlines Py.truthy]. intros H.
  apply andb_prop in H as [Hc Hr]. apply negb_true_iff in Hc.
  rewrite Hc, (IH Hr). destruct r; reflexivity.
Qed.

Lemma one_line_lstrip (s : string) : one_line s = true -> one_line (Py.lstrip s) = true.
Proof.
  induction s as [|c r IH]; [reflexivity|]. intros H. cbn [Py.lstrip].
  destruct (Py.is_space c); [|exact H].
  apply IH. cbn [one_line] in H. now apply andb_prop in H.
Qed.

Lemma one_line_rstrip (s : string) : one_line s = true -> one_line (Py.rstrip s) = true.
Proof.
  induction s as [|c r IH]; [reflexivity|]. cbn [one_line Py.rstrip]. intros H.
  apply andb_prop in H as [Hc Hr]. specialize (IH Hr).
  destruct (Py.rstrip r).
  - destruct (Py.is_space c); [reflexivity|]. cbn [one_line]. now rewrite Hc.
  - cbn [one_line] in *. now rewrite Hc, IH.
Qed.

Lemma rstrip_app_NL (s : string) : Py.rstrip (s ++ NL) = Py.rstrip s.
Proof.
  induction s as [|c r IH]; [reflexivity|].
  cbn [append Py.rstrip]. now rewrite IH.
Qed.

Lemma lstrip_app_NL (s : string) :
  Py.lstrip (s ++ NL) = Py.lstrip s ++ NL
  \/ (Py.lstrip s = "" /\ Py.lstrip (s ++ NL) = "").
Proof.
  induction s as [|c r IH]; [right; split; reflexivity|].
  cbn [append Py.lstrip]. destruct (Py.is_space c); [exact IH | left; reflexivity].
Qed.

(** Stripping the output of a plain confirm leaves the stripped selection:
    the empty key line is gone. *)
Lemma strip_plain_confirm (selection : string) :
  Py.strip (plain_confirm selection) = Py.strip selection.
Proof.
  unfold Py.strip, plain_confirm.
  change (Py.lstrip (NL ++ selection ++ NL)) with (Py.lstrip (selection ++ NL)).
  destruct (lstrip_app_NL selection) as [E|[E1 E2]].
  - rewrite E. apply rstrip_app_NL.
  - now rewrite E1, E2.
Qed.

(** The source | selector pipeline as the dashboard variant launches it. *)
Lemma seeker_run_fzf_done (config : SearchConfig) (bat_exe out : string) (w : Host.World) :
  Seeker.run_fzf config bat_exe (Host.Done out) w
  = (Host.Ret (Some (Py.strip out), Seeker.is_content config),
     Host.add_proc (Host.Exec (Seeker.fzf_cmd config bat_exe))
                   (Host.add_proc (Host.Shell (Seeker.source_cmd config)) w)).
Proof. reflexivity. Qed.

(** C2 (the code on the failing inputs). In the dashboard variant the
    selector's output for a plain confirm, an empty first line and then the
    selected line, is stripped before it is split into lines, so the empty
    first line is lost: at most one line is left, and the program exits with
    code 0 after launching the pipeline and nothing else. Whatever line was
    selected, no default action is performed on it. *)
Theorem seeker_plain_confirm_exits_without_dispatch
        (env : Host.Env) (config : SearchConfig) (selection : string) (w : Host.World) :
  missing_dependencies env = [] ->
  one_line selection = true ->
  let launched :=
    Host.add_proc (Host.Exec (Seeker.fzf_cmd config (get_bat_command env)))
                  (Host.add_proc (Host.Shell (Seeker.source_cmd config)) w) in
  Seeker.program env (Some config) (Host.Done (plain_confirm selection)) w
  = (Host.Exited 0,
     if Py.truthy (Py.strip selection) then launched
     else Host.add_stdout "No selection made." launched).
Proof.
  intros Hdeps Hone launched.
  unfold Seeker.program, Seeker.main, Seeker.check_dependencies.
  rewrite Hdeps. unfold Host.try_except, Host.bind. cbn [Host.ret].
  rewrite seeker_run_fzf_done, strip_plain_confirm. fold launched.
  assert (L : one_line (Py.strip selection) = true)
    by (apply one_line_rstrip, one_line_lstrip, Hone).
  rewrite (splitlines_one_line _ L).
  destruct (Py.truthy (Py.strip selection)); reflexivity.
Qed.

Lemma seeker_plain_confirm_exits_without_dispatch_witness :
  Seeker.program quiet_env (Some (mkConfig "filename" false true "print" ""))
                 (Host.Done (plain_confirm "README.md")) (Host.mkWorld None [] [] [])
  = (Host.Exited 0,
     Host.mkWorld None [] []
       [Host.Shell "rg --files --hidden --glob '!.git/*'";
        Host.Exec (Seeker.fzf_cmd (mkConfig "filename" false true "print" "") "bat")]).
Proof.
  apply (seeker_plain_confirm_exits_without_dispatch quiet_env
           (mkConfig "filename" false true "print" "") "README.md"
           (Host.mkWorld None [] [] []));
    reflexivity.
Defined.

(** The same output in the looping variant: the default action "cd" is
    performed on README.md and the loop is left. *)
Lemma yoink_plain_confirm_dispatches :
  Yoink.program quiet_env
                [Yoink.mkIterIn (Host.Done "") (Host.Done (plain_confirm "README.md"))]
                (Host.mkWorld None [] [] [])
  = (Yoink.Ended (Host.Exited 0),
     Host.mkWorld (Some "/work") [] []
                  [Host.Shell (Yoink.source_cmd Yoink.default_config);
                   Host.Exec (Yoink.fzf_cmd Yoink.default_config "bat")]).
Proof. vm_compute. reflexivity. Qed.

(** ** The hand-off file across a session *)



(** Case analysis on the key tests of [route], in the order of the source:
    [tac] closes the branch of each key, the goal left is the final [else]. *)
Ltac by_key_tests key tac :=
  repeat match goal with
         | |- context [if String.eqb key ?k then _ else _] =>
             destruct (String.eqb key k); [tac|]
         end.



Lemma prompt_query_keeps (config : SearchConfig) (answer : Host.Blocking string)
      (w : Host.World) :
  let w' := snd (Yoink.prompt_query config answer w) in
  Host.handoff w' = Host.handoff w
  /\ Host.stdout w' = (Host.stdout w ++ turn_texts config)%list.
Proof.
  unfold Yoink.prompt_query, turn_texts.
  destruct (Yoink.needs_query config);
    [|split; [reflexivity | cbn; now rewrite app_nil_r]].
  destruct answer; split; try reflexivity; cbn; now rewrite <- !app_assoc.
Qed.

Lemma run_fzf_keeps (config : SearchConfig) (bat_exe : string) (pipe : Host.Blocking string)
      (w : Host.World) :
  let w' := snd (Yoink.run_fzf config bat_exe pipe w) in
  Host.handoff w' = Host.handoff w /\ Host.stdout w' = Host.stdout w.
Proof.
  destruct pipe as [out| |e n]; try (split; reflexivity).
  unfold Yoink.run_fzf, Host.try_except, Host.bind.
  destruct (Host.started_process (Host.Fails e n) 0),
    (Host.started_process (Host.Fails e n) 1), e; split; reflexivity.
Qed.





(** X17. Dispatches through an explicit action key are not
    change-directory dispatches: whatever is selected and however the
    launched process ends, they leave the hand-off file as it was. *)
Lemma action_key_dispatch_keeps_handoff (env : Host.Env) (config : SearchConfig)
      (is_content : bool) (key : string) (sel : option string) (w : Host.World) :
  In key ["ctrl-v"; "ctrl-x"; "ctrl-t"; "ctrl-o"] ->
  Host.handoff (snd (Yoink.route env config is_content key sel w)) = Host.handoff w.
Proof.
  intros H.
  assert (K : forall fp ln ed,
             ed <> "cd" ->
             Host.handoff (snd ((Yoink.open_file env fp ln ed ;;; Host.ret Yoink.Break) w))
             = Host.handoff w).
  { intros fp ln ed Hed. unfold Host.bind.
    pose proof (open_file_keeps_handoff env fp ln ed w Hed) as E.
    destruct (Yoink.open_file env fp ln ed w) as [[[]|e] w']; exact E. }
  unfold Yoink.route.
  destruct sel as [s|];
    [destruct (negb (Py.truthy s));
     [|destruct (Yoink.parse_selection s is_content) as [[fp|] ln];
       [destruct (negb (Py.truthy fp))|]]|];
    cbn in H; decompose [or] H; subst; try contradiction; cbn [String.eqb Ascii.eqb Bool.eqb];
    try reflexivity; apply K; discriminate.
Qed.







(** ** Operator interrupts *)





(** An interrupt while the editor started by ctrl-v runs: the process ends
    with code 0 and nothing is printed. *)
Lemma interrupted_editor_exits_zero :
  let ins := [Yoink.mkIterIn (Host.Done "")
                             (Host.Done ("ctrl-v" ++ NL ++ "README.md" ++ NL))] in
  let r := Yoink.program interrupted_child_env ins (Host.mkWorld None [] [] []) in
  fst r = Yoink.Ended (Host.Exited 0) /\ Host.stdout (snd r) = [].
Proof. cbv zeta. split; reflexivity. Qed.

(** X13. The dashboard variant under an interrupt of the pipeline: its
    Selector Driver returns the cancelled value too, and the program exits
    with code 0 after the line "No selection made.". *)
Lemma seeker_interrupt_exits_zero (env : Host.Env) (config : SearchConfig)
      (w : Host.World) :
  missing_dependencies env = [] ->
  fst (Seeker.run_fzf config (get_bat_command env) Host.Interrupt w)
  = Host.Ret (None, false)
  /\ fst (Seeker.program env (Some config) Host.Interrupt w) = Host.Exited 0
  /\ Host.stdout (snd (Seeker.program env (Some config) Host.Interrupt w))
     = (Host.stdout w ++ ["No selection made."])%list.
Proof.
  intros Hdeps. split; [reflexivity|].
  unfold Seeker.program, Seeker.main, Seeker.check_dependencies. rewrite Hdeps.
  split; reflexivity.
Qed.

(** * Further properties of the two programs *)

(** ** The dependency check *)

Lemma dependencies_nil_installed (env : Host.Env) :
  missing_dependencies env = [] ->
  Host.installed env "bat" = true \/ Host.installed env "batcat" = true.
Proof.
  unfold missing_dependencies, BINARY_DEPENDENCIES. cbn.
  destruct (Host.installed env "fzf"), (Host.installed env "rg"),
    (Host.installed env "bat"), (Host.installed env "batcat"); cbn;
    intros H; try discriminate H; auto.
Qed.

(** X1. The dependency check of either variant passes exactly when [fzf]
    and [rg] are installed and the previewer is installed under one of its
    two names, [bat] or [batcat]. *)
Theorem dependencies_present_iff (env : Host.Env) :
  missing_dependencies env = []
  <-> Host.installed env "fzf" = true
      /\ Host.installed env "rg" = true
      /\ (Host.installed env "bat" = true \/ Host.installed env "batcat" = true).
Proof.
  unfold missing_dependencies, BINARY_DEPENDENCIES. cbn.
  destruct (Host.installed env "fzf"), (Host.installed env "rg"),
    (Host.installed env "bat"), (Host.installed env "batcat"); cbn;
    split; intros H; try discriminate H; try reflexivity;
    try (repeat split; auto; fail);
    destruct H as (H1 & H2 & [H3|H3]); discriminate.
Qed.

(** X2. Once the dependency check has passed, [get_bat_command] returns
    "bat" when [bat] is installed and "batcat" when it is not, and the name
    it returns is in either case the name of an installed binary. *)
Theorem previewer_is_installed_after_check (env : Host.Env) :
  missing_dependencies env = [] ->
  get_bat_command env = (if Host.installed env "bat" then "bat" else "batcat")
  /\ Host.installed env (get_bat_command env) = true.
Proof.
  intros H. apply dependencies_nil_installed in H.
  unfold get_bat_command.
  destruct (Host.installed env "bat") eqn:B.
  - split; [reflexivity | exact B].
  - destruct H as [E|E]; [discriminate E|]. rewrite E. split; [reflexivity | exact E].
Qed.

Lemma previewer_is_installed_after_check_witness :
  get_bat_command batcat_env = "batcat"
  /\ Host.installed batcat_env (get_bat_command batcat_env) = true.
Proof.
  apply (previewer_is_installed_after_check batcat_env). reflexivity.
Defined.

(** X3. When a dependency is missing, either variant writes three lines
    that name the missing tools (the looping variant through rich, with its
    markup tags; the dashboard variant with colour codes) and ends with exit
    code 1 before anything else happens: whatever the operator would have
    answered, no process is launched, no prompt is shown and the hand-off
    file is not touched, not even removed. *)
Theorem missing_dependency_exits_before_anything
        (env : Host.Env) (ins : list Yoink.IterIn) (tui : option SearchConfig)
        (pipe : Host.Blocking string) (w : Host.World) :
  missing_dependencies env <> [] ->
  let y := Yoink.program env ins w in
  let s := Seeker.program env tui pipe w in
  fst y = Yoink.Ended (Host.Exited 1)
  /\ fst s = Host.Exited 1
  /\ Host.stdout (snd y)
     = List.app (Host.stdout w)
         ["[bold red]Error: Missing Binary Dependencies[/bold red]";
          "The following tools are required in PATH: [yellow]"
            ++ Py.join ", " (missing_dependencies env) ++ "[/yellow]";
          "Please install them using your package manager (brew, apt, winget, etc.)."]
  /\ Host.stdout (snd s)
     = List.app (Host.stdout w)
         [Seeker.FAIL ++ "Error: Missing Binary Dependencies" ++ Seeker.ENDC;
          "The following tools are required in PATH: "
            ++ Py.join ", " (missing_dependencies env);
          "Please install them using your package manager (brew, apt, winget, etc.)."]
  /\ Host.handoff (snd y) = Host.handoff w
  /\ Host.procs (snd y) = Host.procs w /\ Host.screen (snd y) = Host.screen w
  /\ Host.procs (snd s) = Host.procs w /\ Host.handoff (snd s) = Host.handoff w.
Proof.
  intros H y s. subst y s.
  unfold Yoink.program, Yoink.guarded, Yoink.main, Yoink.check_dependencies,
    Seeker.program, Seeker.main, Seeker.check_dependencies.
  destruct (missing_dependencies env) as [|m ms]; [now contradiction H|].
  cbn. rewrite <- !app_assoc. repeat split; reflexivity.
Qed.

Lemma missing_dependency_exits_before_anything_witness :
  let y := Yoink.program no_bat_env
             [Yoink.mkIterIn (Host.Done "") (Host.Done (plain_confirm "README.md"))]
             (Host.mkWorld (Some "/old/dir") [] [] []) in
  let s := Seeker.program no_bat_env None (Host.Done "")
             (Host.mkWorld (Some "/old/dir") [] [] []) in
  fst y = Yoink.Ended (Host.Exited 1)
  /\ fst s = Host.Exited 1
  /\ Host.stdout (snd y)
     = ["[bold red]Error: Missing Binary Dependencies[/bold red]";
        "The following tools are required in PATH: [yellow]bat[/yellow]";
        "Please install them using your package manager (brew, apt, winget, etc.)."]
  /\ Host.stdout (snd s)
     = [Seeker.FAIL ++ "Error: Missing Binary Dependencies" ++ Seeker.ENDC;
        "The following tools are required in PATH: bat";
        "Please install them using your package manager (brew, apt, winget, etc.)."]
  /\ Host.handoff (snd y) = Some "/old/dir"
  /\ Host.procs (snd y) = [].
Proof.
  cbv zeta.
  pose proof (missing_dependency_exits_before_anything no_bat_env
                [Yoink.mkIterIn (Host.Done "") (Host.Done (plain_confirm "README.md"))]
                None (Host.Done "") (Host.mkWorld (Some "/old/dir") [] [] [])) as H.
  cbv zeta in H.
  destruct H as (H1 & H2 & H3 & H4 & H5 & H6 & _); [vm_compute; discriminate|].
  repeat split; assumption.
Defined.

(** ** The query prompt of the looping variant *)

(** X4. After the head of a loop turn the configuration never lacks a
    query in content mode: an empty answer to the prompt becomes ".", and a
    configuration that needs no query is passed on as it is without any
    prompt. The step raises only when the prompt was needed and the prompt
    call itself did not return: on an operator interrupt, or on the
    exception the call raised, such as the end of the input. *)
Theorem prompt_leaves_a_query
        (config : SearchConfig) (answer : Host.Blocking string) (w : Host.World) :
  match Yoink.prompt_query config answer w with
  | (Host.Ret config', w') =>
      Yoink.needs_query config' = false
      /\ mode config' = mode config /\ editor config' = editor config
      /\ case_sensitive config' = case_sensitive config
      /\ hidden_files config' = hidden_files config
      /\ (Yoink.needs_query config = false -> config' = config /\ w' = w)
  | (Host.Raise e, _) =>
      Yoink.needs_query config = true /\ Host.blocking_exn answer = Some e
  end.
Proof.
  unfold Yoink.prompt_query.
  destruct (Yoink.needs_query config) eqn:N.
  - destruct answer as [q| |e n]; cbn; [|split; reflexivity|split; reflexivity].
    split; [|repeat split; try reflexivity; discriminate].
    unfold Yoink.needs_query, set_initial_query; cbn.
    destruct q; cbn; apply andb_false_r.
  - cbn. rewrite N. repeat split; reflexivity.
Qed.

(** ** Key routing of the looping variant *)

Lemma not_in_cons_eqb (x y : string) (l : list string) :
  ~ In x (y :: l) -> String.eqb x y = false /\ ~ In x l.
Proof.
  intros H. split.
  - apply String.eqb_neq. intros ->. apply H. left. reflexivity.
  - intros I. apply H. right. exact I.
Qed.

(** Rewrites the key tests of [route] away for a key that is in none of
    the lists the hypothesis [H] excludes. *)
Ltac drop_key_tests H :=
  repeat (apply not_in_cons_eqb in H;
          let E := fresh "E" in destruct H as [E H]; rewrite ?E).

(** X6. In the looping variant an action key pressed on a selection whose
    parsed path is not empty dispatches to that key's own editor (ctrl-v
    vim, ctrl-x vscode, ctrl-t sublime, ctrl-o folder), whatever the
    configured default action is, and the loop is left. *)
Theorem yoink_action_key_overrides_default
        (env : Host.Env) (config : SearchConfig) (output key ed selection_text filepath : string)
        (line_num : option string) (rest : list string) (is_content : bool) :
  In (key, ed) yoink_action_keys ->
  Py.splitlines output = key :: selection_text :: rest ->
  Yoink.parse_selection selection_text is_content = (Some filepath, line_num) ->
  Py.truthy filepath = true ->
  Yoink.handle_output env config (Some output) is_content
  = (Yoink.open_file env filepath line_num ed ;;; Host.ret Yoink.Break).
Proof.
  intros Hk Hl Hp Hf.
  rewrite (handle_output_routes _ _ _ _ _ _ Hl). cbn [hd_error].
  assert (Hs : Py.truthy selection_text = true).
  { destruct selection_text; [|reflexivity]. vm_compute in Hp. discriminate Hp. }
  unfold Yoink.route.
  cbn in Hk. decompose [or] Hk; try contradiction;
    match goal with H : (_, _) = (_, _) |- _ => injection H as <- <- end;
    cbn [String.eqb Ascii.eqb Bool.eqb];
    rewrite Hs; cbn [negb]; rewrite Hp; cbv beta iota; rewrite Hf; reflexivity.
Qed.

Lemma yoink_action_key_overrides_default_witness :
  Yoink.handle_output quiet_env (mkConfig "content" false true "cd" "TODO")
                      (Some (key_on "ctrl-x" "main.go:10:// TODO fix")) true
                      (Host.mkWorld None [] [] [])
  = (Host.Ret Yoink.Break,
     Host.mkWorld None [] [] [Host.Exec ["code"; "-g"; "main.go:10"]]).
Proof.
  rewrite (yoink_action_key_overrides_default quiet_env
             (mkConfig "content" false true "cd" "TODO")
             (key_on "ctrl-x" "main.go:10:// TODO fix") "ctrl-x" "vscode"
             "main.go:10:// TODO fix" "main.go" (Some "10") [] true);
    [reflexivity | right; left; reflexivity | reflexivity | reflexivity | reflexivity].
Defined.

(** X7. The looping variant asks the selector to report exactly the eight
    keys its routing tests for, and any other key line is routed as a plain
    confirm is: to the default action when a line is selected, to another
    turn of the loop when none is. *)
Theorem yoink_other_key_is_plain_confirm
        (env : Host.Env) (config : SearchConfig) (bat_exe key : string)
        (selection_text : option string) (is_content : bool) :
  ~ In key (map fst yoink_action_keys ++ toggle_keys)%list ->
  Yoink.route env config is_content key selection_text
  = Yoink.route env config is_content "" selection_text
  /\ In ("--expect=" ++ Py.join "," (map fst yoink_action_keys ++ toggle_keys)%list)
        (Yoink.fzf_cmd config bat_exe).
Proof.
  intros H. split.
  - unfold Yoink.route. unfold yoink_action_keys, toggle_keys in H.
    cbn [map fst app] in H. drop_key_tests H. reflexivity.
  - cbn. do 13 right. left. reflexivity.
Qed.

Lemma yoink_other_key_is_plain_confirm_witness :
  Yoink.route quiet_env Yoink.default_config false "ctrl-z" (Some "README.md")
              (Host.mkWorld None [] [] [])
  = (Host.Ret Yoink.Break, Host.mkWorld (Some "/work") [] [] []).
Proof.
  destruct (yoink_other_key_is_plain_confirm quiet_env Yoink.default_config "bat"
              "ctrl-z" (Some "README.md") false) as [E _].
  - cbn. intros H. decompose [or] H; try discriminate; assumption.
  - rewrite E. reflexivity.
Defined.

(** X8. In the looping variant an output with a key line and no selected
    line, for a key that is not a toggle, starts another turn of the loop
    with the configuration as it is: nothing is dispatched, printed or
    written, also when the key is an action key. *)
Theorem yoink_key_without_selection_loops_again
        (env : Host.Env) (config : SearchConfig) (output key : string)
        (is_content : bool) (w : Host.World) :
  ~ In key toggle_keys ->
  Py.splitlines output = [key] ->
  Yoink.handle_output env config (Some output) is_content w
  = (Host.Ret (Yoink.Continue config), w).
Proof.
  intros H Hl.
  rewrite (handle_output_routes _ _ _ _ _ _ Hl). cbn [hd_error].
  unfold Yoink.route. unfold toggle_keys in H. drop_key_tests H. reflexivity.
Qed.

Lemma yoink_key_without_selection_loops_again_witness :
  Yoink.handle_output quiet_env Yoink.default_config (Some ("ctrl-v" ++ NL)) false
                      (Host.mkWorld None [] [] [])
  = (Host.Ret (Yoink.Continue Yoink.default_config), Host.mkWorld None [] [] []).
Proof.
  apply (yoink_key_without_selection_loops_again quiet_env Yoink.default_config
           ("ctrl-v" ++ NL) "ctrl-v" false (Host.mkWorld None [] [] [])).
  - cbn. intros H. decompose [or] H; try discriminate; assumption.
  - reflexivity.
Defined.

(** X9. In the looping variant a selected line whose parsed path is empty
    (a line of blanks in filename mode, a line starting with a colon in
    content mode) ends the run with exit code 1 for every key that is not a
    toggle: nothing is dispatched and the world is as it was. *)
Theorem yoink_empty_path_exits_one
        (env : Host.Env) (config : SearchConfig) (output key selection_text : string)
        (rest : list string) (is_content : bool) (w : Host.World) :
  ~ In key toggle_keys ->
  Py.splitlines output = key :: selection_text :: rest ->
  Py.truthy selection_text = true ->
  fst (Yoink.parse_selection selection_text is_content) = Some "" ->
  Yoink.handle_output env config (Some output) is_content w
  = (Host.Raise (Host.SystemExit 1), w)
  /\ fst (Yoink.guarded (Yoink.handle_output env config (Some output) is_content) w)
     = Host.Raise (Host.SystemExit 1).
Proof.
  intros H Hl Hs Hp.
  assert (E : Yoink.handle_output env config (Some output) is_content w
              = (Host.Raise (Host.SystemExit 1), w)).
  { rewrite (handle_output_routes _ _ _ _ _ _ Hl). cbn [hd_error].
    unfold Yoink.route. unfold toggle_keys in H. drop_key_tests H.
    rewrite Hs. cbn [negb].
    destruct (Yoink.parse_selection selection_text is_content) as [fp ln].
    cbn [fst] in Hp. subst fp. reflexivity. }
  split; [exact E|]. unfold Yoink.guarded, Host.try_except. rewrite E. reflexivity.
Qed.

Lemma yoink_empty_path_exits_one_witness :
  Yoink.handle_output quiet_env Yoink.default_config (Some (plain_confirm "   ")) false
                      (Host.mkWorld None [] [] [])
  = (Host.Raise (Host.SystemExit 1), Host.mkWorld None [] [] [])
  /\ Yoink.handle_output quiet_env Yoink.default_config
                         (Some (key_on "ctrl-v" ":10:text")) true
                         (Host.mkWorld None [] [] [])
     = (Host.Raise (Host.SystemExit 1), Host.mkWorld None [] [] []).
Proof.
  split.
  - apply (yoink_empty_path_exits_one quiet_env Yoink.default_config
             (plain_confirm "   ") "" "   " [] false (Host.mkWorld None [] [] []));
      try reflexivity.
    cbn. intros H. decompose [or] H; try discriminate; assumption.
  - apply (yoink_empty_path_exits_one quiet_env Yoink.default_config
             (key_on "ctrl-v" ":10:text") "ctrl-v" ":10:text" [] true
             (Host.mkWorld None [] [] []));
      try reflexivity.
    cbn. intros H. decompose [or] H; try discriminate; assumption.
Defined.

(** ** The search command of the dashboard variant *)

Lemma escape_quotes_no_quote (q : string) :
  no_quote q = true -> Yoink.escape_quotes q = q.
Proof.
  unfold Yoink.escape_quotes.
  induction q as [|c q IH]; [reflexivity|]. cbn [no_quote Py.replace]. intros H.
  apply andb_prop in H as [Hc Hq]. apply negb_true_iff in Hc.
  rewrite Hc, (IH Hq). reflexivity.
Qed.

(** The content search command with the query escaped, as the shell reads
    it. *)
Lemma lex_content_search (hidden case : bool) (q : string) :
  Sh.tokens ("rg --line-number --no-heading --color=always "
               ++ (if hidden then "--hidden" else "") ++ " "
               ++ (if case then "--case-sensitive" else "--smart-case")
               ++ " '" ++ Yoink.escape_quotes q ++ "'")
  = Some (map Sh.Word
              (["rg"; "--line-number"; "--no-heading"; "--color=always"]
                 ++ (if hidden then ["--hidden"] else [])
                 ++ [if case then "--case-sensitive" else "--smart-case"; q])%list).
Proof.
  assert (Q : Sh.lex Sh.InSingle (Some "") (Yoink.escape_quotes q ++ "'")
              = Some [Sh.Word q])
    by (rewrite lex_escaped_query; reflexivity).
  unfold Sh.tokens.
  destruct hidden, case; cbn -[Yoink.escape_quotes]; rewrite Q; reflexivity.
Qed.

(** X11. For a query with no single quote in it the dashboard variant
    builds the very command the looping variant builds, and the shell reads
    it as the intended search; in filename mode this holds for every
    configuration, the query not being part of the command. *)
Theorem seeker_source_cmd_sound_without_quotes (config : SearchConfig) :
  no_quote (initial_query config) = true \/ mode config = "filename" ->
  Seeker.source_cmd config = Yoink.source_cmd config
  /\ Sh.simple_command (Seeker.source_cmd config) (search_argv config).
Proof.
  intros H.
  assert (E : Seeker.source_cmd config = Yoink.source_cmd config).
  { unfold Seeker.source_cmd, Yoink.source_cmd, Seeker.hidden_flag, Yoink.hidden_flag,
      Seeker.case_flag, Yoink.case_flag.
    destruct (String.eqb (mode config) "filename") eqn:M; [reflexivity|].
    destruct H as [H|H]; [|rewrite H in M; discriminate M].
    rewrite escape_quotes_no_quote; [reflexivity|].
    destruct (Py.truthy (initial_query config)); [exact H | reflexivity]. }
  split; [exact E|]. rewrite E.
  unfold Sh.simple_command, Yoink.source_cmd, search_argv, Yoink.hidden_flag,
    Yoink.case_flag.
  destruct (String.eqb (mode config) "filename").
  - destruct (hidden_files config); reflexivity.
  - apply lex_content_search.
Qed.

Lemma seeker_source_cmd_sound_without_quotes_witness :
  Sh.tokens (Seeker.source_cmd (dashboard_content_search "TODO; rm -rf $HOME"))
  = Some [Sh.Word "rg"; Sh.Word "--line-number"; Sh.Word "--no-heading";
          Sh.Word "--color=always"; Sh.Word "--hidden"; Sh.Word "--smart-case";
          Sh.Word "TODO; rm -rf $HOME"].
Proof.
  apply (seeker_source_cmd_sound_without_quotes
           (dashboard_content_search "TODO; rm -rf $HOME")).
  left. reflexivity.
Defined.

(** ** Lines of the content search *)

Lemma split_colon_app (p rest : string) :
  no_colon p = true -> Py.split ":" (p ++ ":" ++ rest) = p :: Py.split ":" rest.
Proof.
  induction p as [|c p IH]; [reflexivity|]. cbn [no_colon]. intros H.
  apply andb_prop in H as [Hc Hp]. apply negb_true_iff in Hc.
  change (String c p ++ ":" ++ rest) with (String c (p ++ ":" ++ rest)).
  cbn [Py.split]. rewrite Hc, (IH Hp). reflexivity.
Qed.

(** X12. A match line of the content search, path, colon, line number,
    colon, matched text, parses back in content mode to that path and that
    line number in both front ends, whatever the matched text contains,
    when neither the path nor the line number has a colon in it. *)
Theorem parse_selection_reads_match_line (path line content : string) :
  no_colon path = true ->
  no_colon line = true ->
  Yoink.parse_selection (path ++ ":" ++ line ++ ":" ++ content) true
  = (Some path, Some line)
  /\ Seeker.parse_selection (path ++ ":" ++ line ++ ":" ++ content) true
     = (Some path, Some line).
Proof.
  intros Hp Hl.
  assert (E : Py.split ":" (path ++ ":" ++ line ++ ":" ++ content)
              = path :: line :: Py.split ":" content)
    by (rewrite (split_colon_app _ _ Hp), (split_colon_app _ _ Hl); reflexivity).
  split.
  - exact (yoink_parse_content _ _ _ _ E).
  - exact (seeker_parse_content _ _ _ _ E).
Qed.

Lemma parse_selection_reads_match_line_witness :
  Yoink.parse_selection "src/net/http.go:128:	return a[i:j], nil // TODO: fix" true
  = (Some "src/net/http.go", Some "128")
  /\ Seeker.parse_selection "src/net/http.go:128:	return a[i:j], nil // TODO: fix" true
     = (Some "src/net/http.go", Some "128").
Proof.
  apply (parse_selection_reads_match_line "src/net/http.go" "128"
           "	return a[i:j], nil // TODO: fix");
    reflexivity.
Defined.

Lemma seeker_interrupt_exits_zero_witness :
  fst (Seeker.program quiet_env (Some Seeker.default_config) Host.Interrupt
                      (Host.mkWorld None [] [] [])) = Host.Exited 0
  /\ Host.stdout (snd (Seeker.program quiet_env (Some Seeker.default_config)
                                      Host.Interrupt (Host.mkWorld None [] [] [])))
     = ["No selection made."].
Proof.
  apply (seeker_interrupt_exits_zero quiet_env Seeker.default_config
           (Host.mkWorld None [] [] [])).
  reflexivity.
Defined.

(** ** Action keys of the dashboard variant *)

Lemma truthy_app_r (a b : string) : Py.truthy b = true -> Py.truthy (a ++ b) = true.
Proof. destruct a; [trivial | reflexivity]. Qed.

Lemma rstrip_app_keep (a b : string) :
  Py.truthy (Py.rstrip b) = true -> Py.rstrip (a ++ b) = a ++ Py.rstrip b.
Proof.
  intros H. induction a as [|c a IH]; [reflexivity|].
  cbn [append Py.rstrip]. rewrite IH.
  pose proof (truthy_app_r a _ H) as T.
  destruct (a ++ Py.rstrip b); [discriminate T | reflexivity].
Qed.

Lemma splitlines_key_line (k t : string) :
  one_line k = true -> Py.truthy t = true -> one_line t = true ->
  Py.splitlines (k ++ NL ++ t) = [k; t].
Proof.
  intros Hk Ht Ho. induction k as [|c k IH].
  - assert (E : Py.splitlines ("" ++ NL ++ t) = "" :: Py.splitlines t)
      by (destruct t; [discriminate Ht | reflexivity]).
    rewrite E, (splitlines_one_line _ Ho), Ht. reflexivity.
  - cbn [one_line] in Hk. apply andb_prop in Hk as [Hc Hk]. apply negb_true_iff in Hc.
    change (String c k ++ NL ++ t) with (String c (k ++ NL ++ t)).
    cbn [Py.splitlines]. rewrite Hc, (IH Hk). reflexivity.
Qed.

(** What is left of the selector's output for an action key after the
    strip of the dashboard variant: the key line, and the selected line
    with the blanks at its end removed. *)
Lemma strip_key_on (key ed selection : string) :
  In (key, ed) seeker_action_keys ->
  Py.truthy (Py.rstrip selection) = true ->
  Py.strip (key_on key selection) = key ++ NL ++ Py.rstrip selection.
Proof.
  intros Hk Hs.
  assert (R : Py.rstrip (NL ++ selection ++ NL) = NL ++ Py.rstrip selection).
  { change (NL ++ selection ++ NL) with (String Py.LF (selection ++ NL)).
    cbn [Py.rstrip]. rewrite rstrip_app_NL.
    destruct (Py.rstrip selection); [discriminate Hs | reflexivity]. }
  assert (T : Py.truthy (Py.rstrip (NL ++ selection ++ NL)) = true)
    by (rewrite R; reflexivity).
  unfold Py.strip, key_on.
  cbn in Hk. decompose [or] Hk; try contradiction;
    match goal with H : (_, _) = (_, _) |- _ => injection H as <- <- end;
    match goal with
    | |- Py.rstrip (Py.lstrip (?k ++ ?r)) = _ =>
        change (Py.lstrip (k ++ r)) with (k ++ r)
    end;
    rewrite (rstrip_app_keep _ _ T), R; reflexivity.
Qed.

(** X14. In the dashboard variant an action key pressed on a selected
    line still dispatches: the line is read without the blanks at its end,
    and when its parsed path is not empty the file is opened with the key's
    own editor (ctrl-v vim, ctrl-x vscode, ctrl-o folder), whatever default
    action the dashboard was given, right after the pipeline. *)
Theorem seeker_action_key_dispatches
        (env : Host.Env) (config : SearchConfig) (key ed selection filepath : string)
        (line_num : option string) (w : Host.World) :
  missing_dependencies env = [] ->
  In (key, ed) seeker_action_keys ->
  one_line selection = true ->
  Seeker.parse_selection (Py.rstrip selection) (Seeker.is_content config)
  = (Some filepath, line_num) ->
  Py.truthy filepath = true ->
  Seeker.main env (Some config) (Host.Done (key_on key selection)) w
  = Seeker.open_file env filepath line_num ed
                     (seeker_launched config (get_bat_command env) w).
Proof.
  intros Hdeps Hk Hone Hp Hf.
  assert (Hs : Py.truthy (Py.rstrip selection) = true).
  { destruct (Py.rstrip selection); [|reflexivity]. vm_compute in Hp. discriminate Hp. }
  assert (Hkey : one_line key = true /\ Py.truthy key = true).
  { cbn in Hk. decompose [or] Hk; try contradiction;
      match goal with H : (_, _) = (_, _) |- _ => injection H as <- <- end;
      split; reflexivity. }
  destruct Hkey as [Hk1 Hk2].
  unfold Seeker.main, Seeker.check_dependencies. rewrite Hdeps.
  unfold Host.bind. cbn [Host.ret].
  rewrite seeker_run_fzf_done, (strip_key_on _ _ _ Hk Hs).
  fold (seeker_launched config (get_bat_command env) w).
  rewrite (truthy_app_r key (NL ++ Py.rstrip selection) eq_refl). cbn [negb].
  rewrite (splitlines_key_line _ _ Hk1 Hs (one_line_rstrip _ Hone)).
  rewrite Hp, Hf. cbn [negb].
  cbn in Hk. decompose [or] Hk; try contradiction;
    match goal with H : (_, _) = (_, _) |- _ => injection H as <- <- end;
    reflexivity.
Qed.

Lemma seeker_action_key_dispatches_witness :
  Seeker.main quiet_env (Some (dashboard_content_search "TODO"))
              (Host.Done (key_on "ctrl-x" "main.go:10:// TODO fix  "))
              (Host.mkWorld None [] [] [])
  = (Host.Ret tt,
     Host.mkWorld None [] []
       [Host.Shell (Seeker.source_cmd (dashboard_content_search "TODO"));
        Host.Exec (Seeker.fzf_cmd (dashboard_content_search "TODO") "bat");
        Host.Exec ["code"; "-g"; "main.go:10"]]).
Proof.
  rewrite (seeker_action_key_dispatches quiet_env (dashboard_content_search "TODO")
             "ctrl-x" "vscode" "main.go:10:// TODO fix  " "main.go" (Some "10")
             (Host.mkWorld None [] [] []));
    [reflexivity | reflexivity | right; left; reflexivity | reflexivity
     | reflexivity | reflexivity].
Defined.

(** ** Failures of the dispatched process *)

(** Case analysis on membership in a list of string literals. *)
Ltac by_members H :=
  cbn in H; decompose [or] H; try contradiction; subst.

(** X15. A dispatch whose binary is not found is not fatal in either
    variant: for each editor that launches a process, [open_file] reports
    the failure in one line and returns normally, with nothing launched and
    the hand-off file untouched. *)
Theorem missing_binary_is_reported_not_fatal
        (env : Host.Env) (filepath : string) (line_number : option string)
        (editor : string) (w : Host.World) :
  Host.child env = Host.NotFound ->
  In editor ["folder"; "vscode"; "sublime"; "vim"] ->
  let y := Yoink.open_file env filepath line_number editor w in
  let s := Seeker.open_file env filepath line_number editor w in
  (fst y = Host.Ret tt
   /\ Host.procs (snd y) = Host.procs w /\ Host.handoff (snd y) = Host.handoff w
   /\ exists msg, Host.stdout (snd y) = (Host.stdout w ++ [msg])%list)
  /\ (editor <> "sublime" ->
      fst s = Host.Ret tt
      /\ Host.procs (snd s) = Host.procs w /\ Host.handoff (snd s) = Host.handoff w
      /\ exists msg, Host.stdout (snd s) = (Host.stdout w ++ [msg])%list).
Proof.
  intros Hc He y s. subst y s.
  unfold Yoink.open_file, Seeker.open_file, Host.try_except, Host.launch.
  rewrite Hc. by_members He; cbn [String.eqb Ascii.eqb Bool.eqb];
    repeat match goal with
           | |- context [if String.eqb (Host.system_platform env) ?p then _ else _] =>
               destruct (String.eqb (Host.system_platform env) p)
           end;
    cbn; (split; [|intros Hs; try (now contradiction Hs)]);
    repeat split; eexists; reflexivity.
Qed.

Lemma missing_binary_is_reported_not_fatal_witness :
  let w := Host.mkWorld (Some "/old/dir") [] [] [] in
  let y := Yoink.open_file no_editor_env "main.go" (Some "10") "sublime" w in
  fst y = Host.Ret tt
  /\ Host.procs (snd y) = [] /\ Host.handoff (snd y) = Some "/old/dir"
  /\ exists msg, Host.stdout (snd y) = [msg].
Proof.
  cbv zeta.
  apply (missing_binary_is_reported_not_fatal no_editor_env "main.go" (Some "10")
           "sublime" (Host.mkWorld (Some "/old/dir") [] [] []) eq_refl).
  do 2 right. left. reflexivity.
Defined.

(** X16. A launch that fails for another reason than a missing binary is
    caught only by the folder action, which reports it and returns; the
    vscode, sublime and vim actions let the error through, so it leaves
    [open_file] and the guard of [__main__], which catches interrupts only,
    and the interpreter ends on it. *)
Theorem other_launch_failure_is_caught_by_folder_only
        (env : Host.Env) (msg filepath : string) (line_number : option string)
        (editor : string) (w : Host.World) :
  Host.child env = Host.Failed msg ->
  Yoink.open_file env filepath line_number "folder" w
  = (Host.Ret tt,
     Host.add_stdout ("[bold red]Error opening folder: " ++ msg ++ "[/bold red]") w)
  /\ (In editor ["vscode"; "sublime"; "vim"] ->
      Yoink.open_file env filepath line_number editor w = (Host.Raise (Host.OSError msg), w)
      /\ Host.final_of
           (fst (Yoink.guarded (Yoink.open_file env filepath line_number editor) w))
         = Host.Crashed (Host.OSError msg)).
Proof.
  intros Hc.
  unfold Yoink.guarded, Yoink.open_file, Host.try_except, Host.launch. rewrite Hc.
  split.
  - cbn [String.eqb Ascii.eqb Bool.eqb].
    destruct (String.eqb (Host.system_platform env) "Windows"),
      (String.eqb (Host.system_platform env) "Darwin"); reflexivity.
  - intros He. by_members He; split; reflexivity.
Qed.

Lemma other_launch_failure_is_caught_by_folder_only_witness :
  Yoink.open_file failing_child_env "main.go" None "folder" (Host.mkWorld None [] [] [])
  = (Host.Ret tt,
     Host.mkWorld None
       ["[bold red]Error opening folder: [Errno 13] Permission denied[/bold red]"] [] [])
  /\ Yoink.open_file failing_child_env "main.go" None "vim" (Host.mkWorld None [] [] [])
     = (Host.Raise (Host.OSError "[Errno 13] Permission denied"),
        Host.mkWorld None [] [] []).
Proof.
  destruct (other_launch_failure_is_caught_by_folder_only failing_child_env
              "[Errno 13] Permission denied" "main.go" None "vim"
              (Host.mkWorld None [] [] []) eq_refl) as [F V].
  split; [exact F|]. apply V. do 2 right. left. reflexivity.
Defined.

Lemma action_key_dispatch_keeps_handoff_witness :
  Host.handoff
    (snd (Yoink.route quiet_env Yoink.default_config false "ctrl-v" (Some "README.md")
                      (Host.mkWorld None [] [] []))) = None.
Proof.
  apply (action_key_dispatch_keeps_handoff quiet_env Yoink.default_config false "ctrl-v"
           (Some "README.md") (Host.mkWorld None [] [] [])).
  left. reflexivity.
Defined.

(** ** What the loop keeps *)

Lemma prompt_query_fields (config config' : SearchConfig) (answer : Host.Blocking string)
      (w : Host.World) :
  fst (Yoink.prompt_query config answer w) = Host.Ret config' ->
  editor config' = editor config /\ mode config' = mode config.
Proof.
  unfold Yoink.prompt_query.
  destruct (Yoink.needs_query config); [destruct answer|]; cbn; intros H;
    try discriminate H; injection H as <-; split; reflexivity.
Qed.

Lemma dispatch_never_continues (env : Host.Env) (filepath : string)
      (line_number : option string) (ed : string) (w : Host.World) (c : SearchConfig) :
  fst ((Yoink.open_file env filepath line_number ed ;;; Host.ret Yoink.Break) w)
  <> Host.Ret (Yoink.Continue c).
Proof.
  unfold Host.bind.
  destruct (Yoink.open_file env filepath line_number ed w) as [[[]|e] w']; cbn; discriminate.
Qed.

Lemma route_fields (env : Host.Env) (config config' : SearchConfig) (is_content : bool)
      (key : string) (sel : option string) (w : Host.World) :
  fst (Yoink.route env config is_content key sel w) = Host.Ret (Yoink.Continue config') ->
  editor config' = editor config
  /\ (mode config' = mode config \/ mode config' = "filename" \/ mode config' = "content").
Proof.
  unfold Yoink.route.
  by_key_tests key ltac:(cbn; intros H; injection H as <-; cbn; tauto).
  destruct sel as [s|]; [|cbn; intros H; injection H as <-; tauto].
  destruct (negb (Py.truthy s)); [cbn; intros H; injection H as <-; tauto|].
  destruct (Yoink.parse_selection s is_content) as [[fp|] ln]; [|discriminate].
  destruct (negb (Py.truthy fp)); [discriminate|].
  by_key_tests key ltac:(intros H; now apply dispatch_never_continues in H).
  intros H. now apply dispatch_never_continues in H.
Qed.

Lemma iteration_fields (env : Host.Env) (bat_exe : string) (config config' : SearchConfig)
      (i : Yoink.IterIn) (w : Host.World) :
  fst (Yoink.iteration env bat_exe config i w) = Host.Ret (Yoink.Continue config') ->
  editor config' = editor config
  /\ (mode config' = mode config \/ mode config' = "filename" \/ mode config' = "content").
Proof.
  unfold Yoink.iteration, Host.bind.
  pose proof (fun c' => prompt_query_fields config c' (Yoink.prompt_in i) w) as P.
  destruct (Yoink.prompt_query config (Yoink.prompt_in i) w) as [[c1|e] w1];
    [|discriminate].
  destruct (P c1 eq_refl) as [Pe Pm]. clear P.
  destruct (Yoink.run_fzf c1 bat_exe (Yoink.pipe_in i) w1) as [[r|e] w2];
    [|discriminate].
  unfold Yoink.handle_output.
  destruct (fst r) as [o|]; [|discriminate].
  destruct (negb (Py.truthy o)); [discriminate|].
  destruct (Py.splitlines o) as [|k [|sl ls]]; [discriminate| |];
    intros H; apply route_fields in H; rewrite <- Pe, <- Pm; exact H.
Qed.

Lemma loop_fields (env : Host.Env) (bat_exe : string) (ins : list Yoink.IterIn) :
  forall (config config' : SearchConfig) (w : Host.World),
    fst (Yoink.loop env bat_exe config ins w) = Host.Ret (Yoink.Pending config') ->
    editor config' = editor config
    /\ (mode config' = mode config \/ mode config' = "filename" \/ mode config' = "content").
Proof.
  induction ins as [|i rest IH]; intros config config' w; cbn [Yoink.loop].
  - cbn. intros H. injection H as <-. tauto.
  - unfold Host.bind.
    pose proof (fun c' => iteration_fields env bat_exe config c' i w) as K.
    destruct (Yoink.iteration env bat_exe config i w) as [[[c1|]|e] w1];
      [|discriminate|discriminate].
    destruct (K c1 eq_refl) as [Ke Km].
    intros H. destruct (IH _ _ _ H) as [He Hm]. split; [congruence|].
    destruct Hm as [Hm|Hm]; [rewrite Hm; exact Km | tauto].
Qed.

(** X18. Throughout a session of the looping variant the default action
    stays the change-directory action and the mode is one of "filename" and
    "content": whatever keys and answers came before, a loop that is still
    searching does so with such a configuration, so a plain confirm always
    means change directory there. *)
Theorem loop_keeps_cd_as_default
        (env : Host.Env) (ins : list Yoink.IterIn) (w : Host.World)
        (config : SearchConfig) :
  fst (Yoink.program env ins w) = Yoink.Searching config ->
  editor config = "cd" /\ (mode config = "filename" \/ mode config = "content").
Proof.
  unfold Yoink.program, Yoink.guarded, Host.try_except, Yoink.main, Host.bind.
  destruct (Yoink.check_dependencies env w) as [[[]|e] w1];
    [|destruct e; cbn; discriminate].
  destruct (Yoink.clear_last_path env w1) as [[[]|e] w2];
    [|destruct e; cbn; discriminate].
  pose proof (fun c' => loop_fields env (get_bat_command env) ins Yoink.default_config
                                    c' w2) as L.
  destruct (Yoink.loop env (get_bat_command env) Yoink.default_config ins w2)
    as [[[|c]|e] w3]; [cbn; discriminate| |destruct e; cbn; discriminate].
  cbn. intros H. injection H as <-.
  destruct (L c eq_refl) as [Le Lm]. split; [exact Le|].
  destruct Lm as [Lm|Lm]; [left; exact Lm | exact Lm].
Qed.

Lemma loop_keeps_cd_as_default_witness :
  let after := mkConfig "content" true true "cd" "TODO" in
  fst (Yoink.program quiet_env
         [Yoink.mkIterIn (Host.Done "") (Host.Done ("ctrl-s" ++ NL));
          Yoink.mkIterIn (Host.Done "") (Host.Done ("ctrl-h" ++ NL));
          Yoink.mkIterIn (Host.Done "") (Host.Done ("ctrl-g" ++ NL));
          Yoink.mkIterIn (Host.Done "TODO") (Host.Done ("ctrl-z" ++ NL))]
         (Host.mkWorld None [] [] []))
  = Yoink.Searching after
  /\ editor after = "cd" /\ (mode after = "filename" \/ mode after = "content").
Proof.
  cbv zeta. split; [reflexivity|].
  apply (loop_keeps_cd_as_default quiet_env
           [Yoink.mkIterIn (Host.Done "") (Host.Done ("ctrl-s" ++ NL));
            Yoink.mkIterIn (Host.Done "") (Host.Done ("ctrl-h" ++ NL));
            Yoink.mkIterIn (Host.Done "") (Host.Done ("ctrl-g" ++ NL));
            Yoink.mkIterIn (Host.Done "TODO") (Host.Done ("ctrl-z" ++ NL))]
           (Host.mkWorld None [] [] [])).
  reflexivity.
Defined.

(** ** What a session prints *)

Lemma open_file_raise_keeps_stdout (env : Host.Env) (filepath : string)
      (line_number : option string) (ed : string) (w w' : Host.World) (e : Host.exn) :
  Yoink.open_file env filepath line_number ed w = (Host.Raise e, w') ->
  Host.stdout w' = Host.stdout w.
Proof.
  unfold Yoink.open_file, Host.try_except, Host.launch, Host.write_text, Host.bind.
  repeat match goal with
         | |- context [if ?b then _ else _] => destruct b
         end;
    destruct (Host.child env), (Host.open_raises env), (Host.write_raises env);
    cbn; intros H; try discriminate H; injection H as _ <-; reflexivity.
Qed.

Lemma dispatch_then_break_stdout (env : Host.Env) (filepath : string)
      (line_number : option string) (ed : string) (w : Host.World) :
  fst ((Yoink.open_file env filepath line_number ed ;;; Host.ret Yoink.Break) w)
    <> Host.Ret Yoink.Break ->
  Host.stdout (snd ((Yoink.open_file env filepath line_number ed
                       ;;; Host.ret Yoink.Break) w))
  = Host.stdout w.
Proof.
  unfold Host.bind.
  destruct (Yoink.open_file env filepath line_number ed w) as [[[]|e] w'] eqn:E;
    cbn; intros H.
  - now contradiction H.
  - exact (open_file_raise_keeps_stdout _ _ _ _ _ _ _ E).
Qed.

Lemma route_keeps_stdout (env : Host.Env) (config : SearchConfig) (is_content : bool)
      (key : string) (sel : option string) (w : Host.World) :
  fst (Yoink.route env config is_content key sel w) <> Host.Ret Yoink.Break ->
  Host.stdout (snd (Yoink.route env config is_content key sel w)) = Host.stdout w.
Proof.
  unfold Yoink.route.
  by_key_tests key ltac:(intros _; reflexivity).
  destruct sel as [s|]; [|intros _; reflexivity].
  destruct (negb (Py.truthy s)); [intros _; reflexivity|].
  destruct (Yoink.parse_selection s is_content) as [[fp|] ln]; [|intros _; reflexivity].
  destruct (negb (Py.truthy fp)); [intros _; reflexivity|].
  by_key_tests key ltac:(apply dispatch_then_break_stdout).
  apply dispatch_then_break_stdout.
Qed.

Lemma iteration_stdout (env : Host.Env) (bat_exe : string) (config : SearchConfig)
      (i : Yoink.IterIn) (w : Host.World) :
  fst (Yoink.iteration env bat_exe config i w) <> Host.Ret Yoink.Break ->
  Host.stdout (snd (Yoink.iteration env bat_exe config i w))
  = (Host.stdout w ++ turn_texts config)%list.
Proof.
  unfold Yoink.iteration, Host.bind.
  pose proof (prompt_query_keeps config (Yoink.prompt_in i) w) as [_ P].
  destruct (Yoink.prompt_query config (Yoink.prompt_in i) w) as [[c1|e] w1];
    cbn [snd] in P; [|intros _; exact P].
  pose proof (run_fzf_keeps c1 bat_exe (Yoink.pipe_in i) w1) as [_ F].
  destruct (Yoink.run_fzf c1 bat_exe (Yoink.pipe_in i) w1) as [[r|e] w2];
    cbn [fst snd] in F; [|intros _; cbn [snd]; congruence].
  unfold Yoink.handle_output.
  destruct (fst r) as [o|]; [|intros _; cbn; congruence].
  destruct (negb (Py.truthy o)); [intros _; cbn; congruence|].
  destruct (Py.splitlines o) as [|k [|sl ls]]; [intros _; cbn; congruence| |];
    intros H; rewrite (route_keeps_stdout _ _ _ _ _ _ H); congruence.
Qed.

Lemma loop_stdout (env : Host.Env) (bat_exe : string) (ins : list Yoink.IterIn) :
  forall (config : SearchConfig) (w : Host.World),
    fst (Yoink.loop env bat_exe config ins w) <> Host.Ret Yoink.Dispatched ->
    exists asked,
      asked <= List.length ins
      /\ Host.stdout (snd (Yoink.loop env bat_exe config ins w))
         = (Host.stdout w ++ concat (repeat prompt_texts asked))%list.
Proof.
  induction ins as [|i rest IH]; intros config w; cbn [Yoink.loop].
  - intros _. exists 0. split; [apply Nat.le_refl | cbn; now rewrite app_nil_r].
  - unfold Host.bind.
    pose proof (iteration_stdout env bat_exe config i w) as K.
    assert (T : forall out,
               out = (Host.stdout w ++ turn_texts config)%list ->
               exists asked, asked <= 1
                 /\ out = (Host.stdout w ++ concat (repeat prompt_texts asked))%list).
    { intros out ->. unfold turn_texts. destruct (Yoink.needs_query config).
      - exists 1. split; [apply Nat.le_refl | cbn [repeat concat]; now rewrite app_nil_r].
      - exists 0. split; [apply Nat.le_0_l | reflexivity]. }
    destruct (Yoink.iteration env bat_exe config i w) as [[[c'|]|e] w1];
      cbn [fst snd] in K.
    + intros H. destruct (IH c' w1 H) as (a & La & Ea).
      destruct (T _ (K ltac:(discriminate))) as (b & Lb & Eb).
      exists (b + a). split; [cbn [List.length]; lia|].
      rewrite Ea, Eb, <- app_assoc. f_equal.
      clear. induction b as [|b IHb]; [reflexivity|].
      cbn [Nat.add repeat concat]. now rewrite <- app_assoc, IHb.
    + intros H. now contradiction H.
    + intros _. destruct (T _ (K ltac:(discriminate))) as (b & Lb & Eb).
      exists b. split; [cbn [List.length]; lia | exact Eb].
Qed.

(** X19. A session of the looping variant that passes the dependency check
    and is not left by a completed dispatch writes nothing to standard
    output but the query prompt (screen cleared, panel, prompt) of each
    turn that asked for a query: no path, no error and no message is
    written while it toggles and searches, when it is cancelled or
    interrupted, when it exits with code 1 on an unusable selection, or when
    a call of the host raises an exception that is let through. *)
Theorem session_without_dispatch_prints_prompts_only
        (env : Host.Env) (ins : list Yoink.IterIn) (w : Host.World) :
  missing_dependencies env = [] ->
  fst (Yoink.main env ins w) <> Host.Ret Yoink.Dispatched ->
  exists asked,
    asked <= List.length ins
    /\ Host.stdout (snd (Yoink.program env ins w))
       = (Host.stdout w ++ concat (repeat prompt_texts asked))%list.
Proof.
  intros Hdeps.
  assert (P : snd (Yoink.program env ins w) = snd (Yoink.main env ins w)).
  { unfold Yoink.program, Yoink.guarded, Host.try_except.
    destruct (Yoink.main env ins w) as [[r|e] w']; [reflexivity|].
    destruct e; reflexivity. }
  rewrite P.
  assert (C : Host.stdout (snd (Yoink.clear_last_path env w)) = Host.stdout w
              /\ fst (Yoink.clear_last_path env w) = Host.Ret tt).
  { unfold Yoink.clear_last_path, Host.bind, Host.handoff_exists, Host.try_except,
      Host.os_remove.
    destruct (Host.handoff w); [|split; reflexivity].
    destruct (Host.remove_raises env); split; reflexivity. }
  destruct C as [C R].
  destruct (Yoink.clear_last_path env w) as [[[]|e] w1] eqn:E; cbn [fst snd] in C, R;
    [|discriminate R].
  assert (M : Yoink.main env ins w
              = Yoink.loop env (get_bat_command env) Yoink.default_config ins w1).
  { unfold Yoink.main, Yoink.check_dependencies. rewrite Hdeps.
    unfold Host.bind, Host.ret. rewrite E. reflexivity. }
  rewrite M. intros H. rewrite <- C. exact (loop_stdout _ _ _ _ _ H).
Qed.

Lemma session_without_dispatch_prints_prompts_only_witness :
  exists asked,
    asked <= 2
    /\ Host.stdout
         (snd (Yoink.program failing_child_env
                 [Yoink.mkIterIn (Host.Done "") (Host.Done ("ctrl-g" ++ NL));
                  Yoink.mkIterIn (Host.Done "TODO")
                                 (Host.Done (key_on "ctrl-v" "main.go:10:// TODO fix"))]
                 (Host.mkWorld None ["earlier output"] [] [])))
       = (["earlier output"] ++ concat (repeat prompt_texts asked))%list.
Proof.
  apply (session_without_dispatch_prints_prompts_only failing_child_env
           [Yoink.mkIterIn (Host.Done "") (Host.Done ("ctrl-g" ++ NL));
            Yoink.mkIterIn (Host.Done "TODO")
                           (Host.Done (key_on "ctrl-v" "main.go:10:// TODO fix"))]
           (Host.mkWorld None ["earlier output"] [] []));
    [reflexivity | vm_compute; discriminate].
Defined.

(** ** The status line of the looping variant *)

(** X20. The status line the looping variant shows above the list tells
    the three toggles apart: two configurations get the same status line
    exactly when they agree on the kind of search, on case sensitivity and
    on hidden files; and that status line heads the header handed to the
    selector. *)
Theorem status_line_tells_toggles_apart (c1 c2 : SearchConfig) (bat_exe : string) :
  (Yoink.status_line c1 = Yoink.status_line c2
   <-> Yoink.is_content c1 = Yoink.is_content c2
       /\ case_sensitive c1 = case_sensitive c2
       /\ hidden_files c1 = hidden_files c2)
  /\ In (Yoink.status_line c1 ++ NL ++ Yoink.controls) (Yoink.fzf_cmd c1 bat_exe).
Proof.
  split.
  - unfold Yoink.status_line, Yoink.is_content.
    destruct (String.eqb (mode c1) "filename"), (String.eqb (mode c2) "filename"),
      (case_sensitive c1), (case_sensitive c2), (hidden_files c1), (hidden_files c2);
      split; intros H;
      try reflexivity; try (repeat split; reflexivity);
      try (vm_compute in H; discriminate H);
      destruct H as (H1 & H2 & H3); discriminate.
  - cbn. do 12 right. left. reflexivity.
Qed.

(** ** The directory handed to the shell *)

Lemma startswith_slash (s : string) :
  Py.startswith "/" s = true <-> exists r, s = String "/" r.
Proof.
  unfold Py.startswith. destruct s as [|c r]; cbn -[ascii_dec].
  - split; [discriminate | intros [r H]; discriminate H].
  - destruct (ascii_dec "/" c) as [<-|N].
    + split; [intros _; now exists r | intros _; destruct r; reflexivity].
    + split; [discriminate|].
      intros [r' H]. injection H as E _. now contradiction N.
Qed.

Lemma join2_absolute (cwd path : string) :
  Py.startswith "/" cwd = true -> Py.startswith "/" (PosixPath.join2 cwd path) = true.
Proof.
  intros H. unfold PosixPath.join2.
  destruct (Py.startswith "/" path) eqn:P; [exact P|].
  apply startswith_slash in H as [r ->].
  destruct (negb (Py.truthy (String "/" r)) || PosixPath.ends_with_slash (String "/" r))%bool;
    apply startswith_slash; eexists; reflexivity.
Qed.

Lemma normpath_absolute (p : string) :
  Py.startswith "/" p = true -> Py.startswith "/" (PosixPath.normpath p) = true.
Proof.
  intros H. unfold PosixPath.normpath. rewrite H.
  pose proof H as H'. apply startswith_slash in H' as [r ->].
  cbn [Py.truthy negb].
  destruct (Py.startswith "//" (String "/" r) && negb (Py.startswith "///" (String "/" r)))%bool;
    cbn [append Py.truthy]; apply startswith_slash; eexists; reflexivity.
Qed.

Lemma rstrip_slash_empty (s : string) :
  Py.rstrip_slash s = "" -> Py.all_slash s = true.
Proof.
  induction s as [|c s IH]; [reflexivity|]. cbn [Py.rstrip_slash Py.all_slash].
  destruct (Py.rstrip_slash s); [|discriminate].
  destruct (Ascii.eqb c "/"); [|discriminate]. intros _. now rewrite IH.
Qed.

Lemma dirname_absolute (p : string) :
  Py.startswith "/" p = true -> Py.startswith "/" (PosixPath.dirname p) = true.
Proof.
  intros H. apply startswith_slash in H as [r ->].
  unfold PosixPath.dirname.
  assert (T : exists h, PosixPath.through_last_slash (String "/" r) = String "/" h).
  { cbn [PosixPath.through_last_slash].
    destruct (PosixPath.through_last_slash r); [now exists "" | eexists; reflexivity]. }
  destruct T as [h ->]. cbn [Py.truthy andb].
  destruct (Py.all_slash (String "/" h)) eqn:A; cbn [negb];
    [apply startswith_slash; eexists; reflexivity|].
  cbn [Py.rstrip_slash].
  destruct (Py.rstrip_slash h) eqn:R.
  - apply rstrip_slash_empty in R. cbn in A. rewrite R in A. discriminate A.
  - apply startswith_slash. eexists. reflexivity.
Qed.

(** X21. The change-directory action always hands the shell an absolute
    directory: started from an absolute working directory, a write that goes
    through leaves in the hand-off file a path that begins with a slash,
    whether the selected path was relative or absolute and whatever line
    came with it. *)
Theorem cd_dispatch_writes_absolute_directory
        (env : Host.Env) (filepath : string) (line_number : option string)
        (w : Host.World) :
  Py.startswith "/" (Host.cwd env) = true ->
  Host.open_raises env = None ->
  Host.write_raises env = None ->
  exists directory,
    Yoink.open_file env filepath line_number "cd" w
    = (Host.Ret tt, Host.set_handoff (Some directory) w)
    /\ Py.startswith "/" directory = true
    /\ directory = PosixPath.dirname (PosixPath.abspath (Host.cwd env) filepath).
Proof.
  intros Hcwd Ho Hw.
  exists (PosixPath.dirname (PosixPath.abspath (Host.cwd env) filepath)).
  split; [|split; [|reflexivity]].
  - unfold Yoink.open_file. cbn [String.eqb Ascii.eqb Bool.eqb].
    unfold Host.try_except, Host.write_text. rewrite Ho, Hw. reflexivity.
  - apply dirname_absolute, normpath_absolute. unfold PosixPath.abspath.
    destruct (Py.startswith "/" filepath) eqn:P; [exact P|].
    apply join2_absolute, Hcwd.
Qed.

Lemma cd_dispatch_writes_absolute_directory_witness :
  Yoink.open_file quiet_env "src/../docs//guide.md" None "cd"
                  (Host.mkWorld None [] [] [])
  = (Host.Ret tt, Host.mkWorld (Some "/work/docs") [] [] []).
Proof.
  destruct (cd_dispatch_writes_absolute_directory quiet_env "src/../docs//guide.md"
              None (Host.mkWorld None [] [] []) eq_refl eq_refl eq_refl)
    as (d & E & _ & D).
  rewrite E, D. reflexivity.
Defined.

(** ** How a run can end *)








(** ** Editors the dashboard variant does not know *)

(** X24. In the dashboard variant [open_file] with an editor outside
    "print", "folder", "vscode", "vim" does nothing at all; this includes
    "cd" and "sublime", which only the looping variant acts on, and the
    default "system". *)
Theorem seeker_open_file_unrecognized_editor_does_nothing
        (env : Host.Env) (filepath : string) (line_number : option string)
        (editor : string) (w : Host.World) :
  ~ In editor seeker_recognized_editors ->
  Seeker.open_file env filepath line_number editor w = (Host.Ret tt, w).
Proof.
  intros H. unfold Seeker.open_file.
  assert (E : forall y, In y seeker_recognized_editors -> String.eqb editor y = false)
    by (intros y Hy; exact (eqb_of_not_in _ _ _ H Hy)).
  rewrite !E by (unfold seeker_recognized_editors; simpl; tauto).
  reflexivity.
Qed.

Lemma seeker_open_file_unrecognized_editor_does_nothing_witness :
  Seeker.open_file quiet_env "/home/u/proj/file.txt" (Some "42") "cd"
                   (Host.mkWorld (Some "/old/dir") [] [] [])
  = (Host.Ret tt, Host.mkWorld (Some "/old/dir") [] [] []).
Proof.
  apply (seeker_open_file_unrecognized_editor_does_nothing quiet_env
           "/home/u/proj/file.txt" (Some "42") "cd"
           (Host.mkWorld (Some "/old/dir") [] [] [])).
  unfold seeker_recognized_editors. simpl.
  intros [H|[H|[H|[H|[]]]]]; discriminate H.
Defined.
